(** * ResuScan client: a shallow embedding of the React front end

    The repository slice is the browser client of a resume analyser:
    - [src/frontend/src/App.js]                       the top-level component and its state,
    - [src/frontend/src/components/JobInput.js]       the job-description text area,
    - [src/frontend/src/components/FileUploader.js]   the resume uploader,
    - [src/frontend/src/components/ResultsDisplay.js] the report view,
    - [src/frontend/src/services/api.js]              the HTTP calls (through axios).

    JavaScript strings are sequences of UTF-16 code units, JSON values are an
    inductive type whose objects are finite maps, the [useState] cells of [App]
    are the fields of one record and every handler is a function on that
    record.  Promises are modelled by what they settle to. *)

From Stdlib Require Import ZArith NArith List Ascii String DecimalString Lia Bool.
From stdpp Require Import base option list gmap.

Local Open Scope Z_scope.
Set Warnings "-register-all".

(** ** JavaScript strings *)

(** A string is its list of UTF-16 code units; [s.length] is the length of
    that list. *)
Abbreviation jsstring := (list N).

Definition js (s : string) : jsstring :=
  map (fun a => N.of_nat (nat_of_ascii a)) (list_ascii_of_string s).
Arguments js s%_string.

(** [WhiteSpace] and [LineTerminator] of ECMAScript: the code units that
    [String.prototype.trim] strips. *)
Definition white_space_code_units : list N :=
  [0x09; 0x0A; 0x0B; 0x0C; 0x0D; 0x20; 0xA0; 0x1680; 0x2028; 0x2029;
   0x202F; 0x205F; 0x3000; 0xFEFF]%N.

Definition is_white_space (c : N) : bool :=
  existsb (N.eqb c) white_space_code_units
  || ((0x2000 <=? c) && (c <=? 0x200A))%N.

Fixpoint trimStart (s : jsstring) : jsstring :=
  match s with
  | c :: s' => if is_white_space c then trimStart s' else s
  | [] => []
  end.

Definition trimEnd (s : jsstring) : jsstring := rev (trimStart (rev s)).

(** [s.trim()] *)
Definition trim (s : jsstring) : jsstring := trimEnd (trimStart s).

(** Truthiness of a string: only the empty string is falsy. *)
Definition str_truthy (s : jsstring) : bool :=
  match s with [] => false | _ => true end.

(** [a || b] on two strings. *)
Definition str_or (a b : jsstring) : jsstring := if str_truthy a then a else b.

(** ** JavaScript values and completions *)

(** The values a parsed response body can hold, together with [undefined]
    (what reading a missing property gives).  Numbers are the integers: the
    wire format gives every numeric field as an integer and binary floating
    point is outside this development.  An object is a finite map from
    property names to values. *)
Inductive jsval : Type :=
| JUndefined
| JNull
| JBool (b : bool)
| JNum (n : Z)
| JStr (s : jsstring)
| JArr (elems : list jsval)
| JObj (fields : gmap jsstring jsval).

(** What a [throw] carries: an [Error] built by the program with its
    message, or the [TypeError] the engine raises. *)
Inductive thrown : Type :=
| ErrorObj (message : jsstring)
| TypeErrorObj.

(** The outcome of evaluating a function body (for an [async] function:
    what its promise settles to). *)
Inductive completion (A : Type) : Type :=
| Return (a : A)
| Throw (e : thrown).
Arguments Return {A} a.
Arguments Throw {A} e.

#[global] Instance completion_ret : MRet completion := fun A a => Return a.

#[global] Instance completion_bind : MBind completion := fun A B k c =>
  match c with
  | Return a => k a
  | Throw e => Throw e
  end.

(** [ToBoolean] *)
Definition truthy (v : jsval) : bool :=
  match v with
  | JUndefined | JNull => false
  | JBool b => b
  | JNum n => negb (n =? 0)
  | JStr s => str_truthy s
  | JArr _ | JObj _ => true
  end.

(** [v.k] for a data property [k].  Reading a property of [undefined] or
    [null] throws; a missing property reads as [undefined].  The program
    reads fixed identifiers only, none of which is an array index or the
    name of a prototype method. *)
Definition prop (v : jsval) (k : jsstring) : completion jsval :=
  match v with
  | JUndefined | JNull => Throw TypeErrorObj
  | JObj m => Return (default JUndefined (m !! k))
  | JArr l => Return (if decide (k = js "length") then JNum (Z.of_nat (length l)) else JUndefined)
  | JStr s => Return (if decide (k = js "length") then JNum (Z.of_nat (length s)) else JUndefined)
  | JBool _ | JNum _ => Return JUndefined
  end.

(** Decimal digits of an integer, as [Number.prototype.toString] prints a
    safe integer (one below 2^53 in absolute value).  A larger integer is
    not, in general, a JavaScript number at all: doubles round there, and
    print in exponent notation from 10^21 on.  No property of this file is
    about the text of such a number. *)
Definition digits_of_Z (n : Z) : jsstring :=
  js (DecimalString.NilZero.string_of_int (Z.to_int n)).

(** [ToString], as applied by [new Error(v)] and, element by element, by
    [Array.prototype.join].  An object prints as [[object Object]] through
    [Object.prototype.toString]; an own property named [toString] hides that
    method, and since no value of a parsed body is callable the conversion
    then throws.  [join_with] is [arr.join(sep)]: [undefined] and [null]
    elements print as the empty string. *)
Fixpoint ToString (v : jsval) : completion jsstring :=
  match v with
  | JUndefined => Return (js "undefined")
  | JNull => Return (js "null")
  | JBool true => Return (js "true")
  | JBool false => Return (js "false")
  | JNum n => Return (digits_of_Z n)
  | JStr s => Return s
  | JArr l =>
      (fix join_comma (l : list jsval) : completion jsstring :=
         match l with
         | [] => Return []
         | x :: rest =>
             sx ← match x with JUndefined | JNull => Return [] | _ => ToString x end;
             match rest with
             | [] => Return sx
             | _ => srest ← join_comma rest; Return (sx ++ js "," ++ srest)
             end
         end) l
  | JObj m =>
      match m !! js "toString" with
      | Some _ => Throw TypeErrorObj
      | None => Return (js "[object Object]")
      end
  end.

Fixpoint join_with (sep : jsstring) (l : list jsval) : completion jsstring :=
  match l with
  | [] => Return []
  | x :: rest =>
      sx ← match x with JUndefined | JNull => Return [] | _ => ToString x end;
      match rest with
      | [] => Return sx
      | _ => srest ← join_with sep rest; Return (sx ++ sep ++ srest)
      end
  end.

(** ** Files and promises *)

(** The fields of a browser [File] that the client reads. *)
Module File.
Record t : Type := { name : jsstring; type : jsstring; size : N }.
End File.

(** What a promise settles to, and when (milliseconds after it was
    created); [Pending] is a promise that never settles. *)
Inductive settled (A E : Type) : Type :=
| Fulfilled (a : A)
| Rejected (e : E).
Arguments Fulfilled {A E} a.
Arguments Rejected {A E} e.

Inductive promise (A E : Type) : Type :=
| Settles (ms : N) (s : settled A E)
| Pending.
Arguments Settles {A E} ms s.
Arguments Pending {A E}.

(** ** axios: the part of the library the client relies on

    This is the documented behaviour of the HTTP library, not code of the
    repository: a request resolves with the response when its status passes
    [validateStatus] (2xx), rejects with [error.response] set when the status
    is outside that range, rejects with only [error.request] set when no
    response arrives (network failure, or the [timeout] of the request
    elapsing first), and rejects with neither when the request could not be
    set up.  A [timeout] of 0 means no timeout. *)
Module axios.

Record Instance : Type := { baseURL : jsstring; timeout : N }.

(** [axios.create(config)] *)
Definition create (baseURL : jsstring) (timeout : N) : Instance :=
  {| baseURL := baseURL; timeout := timeout |}.

Inductive Method : Type := GET | POST.

Inductive FormValue : Type :=
| FormFile (f : File.t)
| FormText (s : jsstring).

(** The per-request config: the caller's headers and, when the caller
    gives one, a timeout that replaces the instance's. *)
Record RequestConfig : Type :=
  { headers : list (jsstring * jsstring); own_timeout : option N }.

(** The request as it leaves the client, after merging the instance
    defaults with the per-request config. *)
Record Request : Type :=
  { method : Method;
    url : jsstring;
    body : list (jsstring * FormValue);
    req_headers : list (jsstring * jsstring);
    req_timeout : N }.

Record Response : Type := { data : jsval; status : Z }.

Record Error : Type := { response : option Response; request : bool }.

(** What the world does with a request. *)
Inductive Network : Type :=
| Answers (elapsed_ms : N) (r : Response)
| Fails (elapsed_ms : N)
| Silent
| NotSent.

Definition validateStatus (status : Z) : bool :=
  (200 <=? status) && (status <? 300).

Definition no_response : Error := {| response := None; request := true |}.

Definition run (rq : Request) (net : Network) : promise Response Error :=
  let t := req_timeout rq in
  let expired (elapsed : N) := ((0 <? t) && (t <=? elapsed))%N in
  match net with
  | NotSent => Settles 0 (Rejected {| response := None; request := false |})
  | Answers elapsed r =>
      if expired elapsed then Settles t (Rejected no_response)
      else if validateStatus (status r) then Settles elapsed (Fulfilled r)
      else Settles elapsed (Rejected {| response := Some r; request := true |})
  | Fails elapsed =>
      if expired elapsed then Settles t (Rejected no_response)
      else Settles elapsed (Rejected no_response)
  | Silent =>
      if (0 <? t)%N then Settles t (Rejected no_response) else Pending
  end.

(** [isAbsoluteURL]: the regular expression [^([a-z][a-z\d+\-.]*:)?//],
    without regard to case. *)
Definition is_letter (c : N) : bool :=
  (((65 <=? c) && (c <=? 90)) || ((97 <=? c) && (c <=? 122)))%N.

Definition is_scheme_char (c : N) : bool :=
  is_letter c || ((48 <=? c) && (c <=? 57))%N
  || (c =? 43)%N || (c =? 45)%N || (c =? 46)%N.

Fixpoint after_scheme (s : jsstring) : jsstring :=
  match s with
  | c :: s' => if is_scheme_char c then after_scheme s' else s
  | [] => []
  end.

Definition two_slashes (s : jsstring) : bool :=
  match s with
  | 47%N :: 47%N :: _ => true
  | _ => false
  end.

Definition isAbsoluteURL (u : jsstring) : bool :=
  two_slashes u
  || match u with
     | c :: u' =>
         is_letter c
         && match after_scheme u' with
            | 58%N :: rest => two_slashes rest
            | _ => false
            end
     | [] => false
     end.

Fixpoint drop_slashes (s : jsstring) : jsstring :=
  match s with
  | 47%N :: s' => drop_slashes s'
  | _ => s
  end.

(** [combineURLs]: one or two slashes are taken off the end of the base
    ([/\/?\/$/]), every slash off the start of the relative URL, and the two
    are joined with a single slash. *)
Definition combineURLs (base relative : jsstring) : jsstring :=
  match relative with
  | [] => base
  | _ =>
      rev (match rev base with
           | 47%N :: 47%N :: b => b
           | 47%N :: b => b
           | b => b
           end)
      ++ [47%N] ++ drop_slashes relative
  end.

(** [buildFullPath] *)
Definition buildFullPath (base requested : jsstring) : jsstring :=
  if str_truthy base && negb (isAbsoluteURL requested)
  then combineURLs base requested
  else requested.

Definition build (inst : Instance) (m : Method) (path : jsstring)
    (body : list (jsstring * FormValue)) (cfg : RequestConfig) : Request :=
  {| method := m;
     url := buildFullPath (baseURL inst) path;
     body := body;
     req_headers := headers cfg;
     req_timeout := default (timeout inst) (own_timeout cfg) |}.

(** [inst.post(path, formData, config)] and [inst.get(path)], against a
    world that decides what happens to each request. *)
Definition post (inst : Instance) (path : jsstring)
    (formData : list (jsstring * FormValue)) (cfg : RequestConfig)
    (world : Request -> Network) : promise Response Error :=
  let rq := build inst POST path formData cfg in run rq (world rq).

Definition get (inst : Instance) (path : jsstring)
    (world : Request -> Network) : promise Response Error :=
  let rq := build inst GET path [] {| headers := []; own_timeout := None |} in
  run rq (world rq).

End axios.

(** ** services/api.js *)

Section Api.

(** [process.env.REACT_APP_API_URL]; [None] when the variable is not set. *)
Variable REACT_APP_API_URL : option jsstring.

Definition API_BASE_URL : jsstring :=
  str_or (default [] REACT_APP_API_URL) (js "http://localhost:5000").

Definition api : axios.Instance := axios.create API_BASE_URL 30000.

(** The body of the [catch] block of [analyzeResume]: every branch
    throws. *)
Definition analyzeResume_catch (error : axios.Error) : thrown :=
  match axios.response error with
  | Some response =>
      match prop (axios.data response) (js "error") with
      | Throw e => e
      | Return v =>
          if truthy v then
            match ToString v with
            | Return message => ErrorObj message
            | Throw e => e
            end
          else ErrorObj (js "Analysis failed")
      end
  | None =>
      if axios.request error
      then ErrorObj (js "Unable to connect to the server. Please try again.")
      else ErrorObj (js "An unexpected error occurred")
  end.

Definition analyzeResume_formData (resumeFile : File.t) (jobDescription : jsstring)
    : list (jsstring * axios.FormValue) :=
  [(js "resume_file", axios.FormFile resumeFile);
   (js "job_description", axios.FormText jobDescription)].

Definition analyzeResume (resumeFile : File.t) (jobDescription : jsstring)
    (world : axios.Request -> axios.Network) : promise jsval thrown :=
  let formData := analyzeResume_formData resumeFile jobDescription in
  match axios.post api (js "/api/analyze") formData
          {| axios.headers := [(js "Content-Type", js "multipart/form-data")];
             axios.own_timeout := None |} world with
  | Settles t (Fulfilled response) => Settles t (Fulfilled (axios.data response))
  | Settles t (Rejected error) => Settles t (Rejected (analyzeResume_catch error))
  | Pending => Pending
  end.

Definition supported_formats_fallback : jsval :=
  JObj {[ js "supported_formats" := JArr [JStr (js "pdf"); JStr (js "docx")];
          js "max_file_size_mb" := JNum 16 ]}.

(** The [catch] block logs the error to the console and returns the
    constant record. *)
Definition getSupportedFormats (world : axios.Request -> axios.Network)
    : promise jsval thrown :=
  match axios.get api (js "/api/supported-formats") world with
  | Settles t (Fulfilled response) => Settles t (Fulfilled (axios.data response))
  | Settles t (Rejected error) => Settles t (Fulfilled supported_formats_fallback)
  | Pending => Pending
  end.

Definition healthCheck (world : axios.Request -> axios.Network)
    : promise jsval thrown :=
  match axios.get api (js "/api/health") world with
  | Settles t (Fulfilled response) => Settles t (Fulfilled (axios.data response))
  | Settles t (Rejected error) =>
      Settles t (Rejected (ErrorObj (js "Server is not responding")))
  | Pending => Pending
  end.

End Api.

(** ** components/JobInput.js *)

Module JobInput.

Definition characterCount (value : jsstring) : nat := length value.

Definition minLength : nat := 50.

Definition isValid (value : jsstring) : bool :=
  bool_decide (minLength <= characterCount value)%nat.

(** [!isValid && value.length > 0]: the text area and the counter carry the
    [invalid] class, and the hint and the validation message are shown. *)
Definition shows_invalid (value : jsstring) : bool :=
  negb (isValid value) && bool_decide (0 < length value)%nat.

(** [isValid && ...]: the "Ready for analysis" check mark is shown. *)
Definition shows_ready (value : jsstring) : bool := isValid value.

End JobInput.

(** ** components/FileUploader.js *)

Module FileUploader.

(** What a handler of the uploader does to the outside: nothing, an
    [alert], or a call of the [onFileSelect] prop. *)
Inductive effect : Type :=
| Nothing
| Alert (message : jsstring)
| OnFileSelect (file : option File.t).

Definition allowedTypes : list jsstring :=
  [js "application/pdf";
   js "application/vnd.openxmlformats-officedocument.wordprocessingml.document"].

Definition maxSize : N := 16 * 1024 * 1024.

Definition handleFileSelect (file : option File.t) : effect :=
  match file with
  | None => Nothing
  | Some file =>
      if negb (bool_decide (File.type file ∈ allowedTypes))
      then Alert (js "Please select a PDF or DOCX file.")
      else if (maxSize <? File.size file)%N
      then Alert (js "File size must be less than 16MB.")
      else OnFileSelect (Some file)
  end.

(** [handleDrop] and [handleInputChange] pass on the first file of the
    list, if there is one. *)
Definition handleDrop (files : list File.t) : effect :=
  match files with
  | file :: _ => handleFileSelect (Some file)
  | [] => Nothing
  end.

Definition handleInputChange (files : list File.t) : effect :=
  match files with
  | file :: _ => handleFileSelect (Some file)
  | [] => Nothing
  end.

Definition removeFile : effect := OnFileSelect None.

End FileUploader.

(** [(selectedFile.size / 1024 / 1024).toFixed(2)], in hundredths of a MiB.
    Dividing an integer below 2^53 by 1024 twice is exact in binary
    floating point, and [toFixed(2)] takes the integer [n] for which
    [n / 100] is nearest to that exact quotient, the larger one on a tie:
    the quotient rounded half up, computed here on integers. *)
Definition size_hundredths (size : N) : N :=
  ((200 * size + 1048576) / 2097152)%N.

(** The digits [toFixed(2)] prints. *)
Definition size_text (size : N) : jsstring :=
  let n := size_hundredths size in
  digits_of_Z (Z.of_N (n / 100))
  ++ js "." ++ [(48 + (n mod 100) / 10)%N; (48 + (n mod 100) mod 10)%N].

(** ** App.js *)

(** The five [useState] cells of [App]. *)
Record AppState : Type :=
  { selectedFile : option File.t;
    jobDescription : jsstring;
    isAnalyzing : bool;
    results : jsval;
    error : option jsstring }.

Definition initialState : AppState :=
  {| selectedFile := None; jobDescription := []; isAnalyzing := false;
     results := JNull; error := None |}.

Definition setSelectedFile (f : option File.t) (st : AppState) : AppState :=
  {| selectedFile := f; jobDescription := jobDescription st;
     isAnalyzing := isAnalyzing st; results := results st; error := error st |}.

Definition setJobDescription (v : jsstring) (st : AppState) : AppState :=
  {| selectedFile := selectedFile st; jobDescription := v;
     isAnalyzing := isAnalyzing st; results := results st; error := error st |}.

Definition setIsAnalyzing (b : bool) (st : AppState) : AppState :=
  {| selectedFile := selectedFile st; jobDescription := jobDescription st;
     isAnalyzing := b; results := results st; error := error st |}.

Definition setResults (r : jsval) (st : AppState) : AppState :=
  {| selectedFile := selectedFile st; jobDescription := jobDescription st;
     isAnalyzing := isAnalyzing st; results := r; error := error st |}.

Definition setError (e : option jsstring) (st : AppState) : AppState :=
  {| selectedFile := selectedFile st; jobDescription := jobDescription st;
     isAnalyzing := isAnalyzing st; results := results st; error := e |}.

Definition handleFileSelect (file : option File.t) (st : AppState) : AppState :=
  setResults JNull (setError None (setSelectedFile file st)).

Definition handleJobDescriptionChange (value : jsstring) (st : AppState) : AppState :=
  setResults JNull (setError None (setJobDescription value st)).

Definition handleReset (st : AppState) : AppState :=
  setError None (setResults JNull (setJobDescription [] (setSelectedFile None st))).

(** [selectedFile && jobDescription.trim().length >= 50], as a condition. *)
Definition isReadyToAnalyze (st : AppState) : bool :=
  match selectedFile st with
  | None => false
  | Some _ => bool_decide (50 <= length (trim (jobDescription st)))%nat
  end.

Definition no_file_message : jsstring := js "Please select a resume file.".

Definition too_short_message : jsstring :=
  js "Please provide a detailed job description (at least 50 characters).".

(** [handleAnalyze] up to its [await]: either an early return after
    [setError], or the three state updates and the arguments of the call of
    [analyzeResume]. *)
Definition handleAnalyze_begin (st : AppState)
    : AppState * option (File.t * jsstring) :=
  match selectedFile st with
  | None => (setError (Some no_file_message) st, None)
  | Some file =>
      if negb (str_truthy (jobDescription st))
         || bool_decide (length (trim (jobDescription st)) < 50)%nat
      then (setError (Some too_short_message) st, None)
      else (setResults JNull (setError None (setIsAnalyzing true st)),
            Some (file, trim (jobDescription st)))
  end.

(** [err.message] of what the [catch] of [handleAnalyze] receives; the text
    of an engine-raised [TypeError] is the engine's. *)
Definition message_of (engine_text : jsstring) (err : thrown) : jsstring :=
  match err with
  | ErrorObj message => message
  | TypeErrorObj => engine_text
  end.

(** [handleAnalyze] after its [await]: the [try] continuation or the [catch]
    block, then [finally]. *)
Definition handleAnalyze_resume (engine_text : jsstring)
    (outcome : settled jsval thrown) (st : AppState) : AppState :=
  match outcome with
  | Fulfilled analysisResults => setIsAnalyzing false (setResults analysisResults st)
  | Rejected err =>
      setIsAnalyzing false
        (setError
           (Some (str_or (message_of engine_text err)
                         (js "Analysis failed. Please try again."))) st)
  end.

(** One complete run of [handleAnalyze] with nothing interleaved: [None]
    when the awaited promise never settles. *)
Definition handleAnalyze (env : option jsstring) (engine_text : jsstring)
    (world : axios.Request -> axios.Network) (st : AppState) : option AppState :=
  match handleAnalyze_begin st with
  | (st', None) => Some st'
  | (st', Some (file, text)) =>
      match analyzeResume env file text world with
      | Settles _ outcome => Some (handleAnalyze_resume engine_text outcome st')
      | Pending => None
      end
  end.

(** What [App] puts on the screen from [error] and [results].
    [displayed_error] is the message of [{error && ...}].
    [displayed_results] is the [results] prop of the [ResultsDisplay]
    element that [{results && <ResultsDisplay results={results} />}] yields
    when [results] is truthy; a falsy [results] yields no element, and React
    then prints the value itself if it is a number ([bare_results]). *)
Definition displayed_error (st : AppState) : option jsstring :=
  match error st with
  | Some e => if str_truthy e then Some e else None
  | None => None
  end.

Definition displayed_results (st : AppState) : option jsval :=
  if truthy (results st) then Some (results st) else None.

(** The text React prints for [{results && ...}] when [results] is falsy:
    the number 0 is printed, [null], [undefined], [false] and the empty
    string print nothing. *)
Definition bare_results (st : AppState) : option jsstring :=
  match results st with
  | JNum 0 => Some (js "0")
  | _ => None
  end.

(** The [disabled] attribute of the analyze button, and whether the reset
    button is rendered. *)
Definition analyze_disabled (st : AppState) : bool :=
  negb (isReadyToAnalyze st) || isAnalyzing st.

Definition reset_rendered (st : AppState) : bool :=
  truthy (results st) || match error st with Some e => str_truthy e | None => false end.

(** ** components/ResultsDisplay.js *)

Module ResultsDisplay.

(** The props of the two inner components; React calls them after
    [ResultsDisplay] has returned its element tree. *)
Record ScoreCircle : Type := { score : jsval; label : jsstring }.
Record KeywordList : Type := { keywords : jsval; type : jsstring }.

(** The dynamic parts of the element tree, in document order.  Static
    markup is left out; [toLocaleString] output depends on the locale and
    is kept as the value it was called on. *)
Record view : Type :=
  { filename : jsval;
    main_score : ScoreCircle;
    sub_scores : list ScoreCircle;
    keyword_grid : list KeywordList;
    skill_grid : list KeywordList;
    sections_found : jsstring;
    strong_verbs_count : jsval;
    recommendations : list (Z * jsval);
    resume_length : jsval;
    job_description_length : jsval;
    total_job_keywords : jsval;
    total_job_tech_skills : jsval }.

Section Body.

(** [ToNumber(s) > 0] for a string [s]: the numeric reading of a string
    is binary floating point and stays a parameter. *)
Variable string_gt_zero : jsstring -> bool.

(** [v > 0] *)
Definition gt_zero (v : jsval) : completion bool :=
  match v with
  | JUndefined | JNull => Return false
  | JBool b => Return b
  | JNum n => Return (0 <? n)
  | JStr s => Return (string_gt_zero s)
  | JArr _ => s ← ToString v; Return (string_gt_zero s)
  | JObj _ => _ ← ToString v; Return false
  end.

(** [v.join(sep)]: only an array has the method. *)
Definition call_join (v : jsval) (sep : jsstring) : completion jsstring :=
  match v with
  | JArr l => join_with sep l
  | _ => Throw TypeErrorObj
  end.

(** [v.map((x, index) => (index + 1, x))]: only an array has the method. *)
Definition call_map (v : jsval) : completion (list (Z * jsval)) :=
  match v with
  | JArr l => Return (imap (fun index x => (Z.of_nat index + 1, x)) l)
  | _ => Throw TypeErrorObj
  end.

(** [v.toLocaleString()]: every value but [undefined] and [null] inherits
    the method.  On an object it is [Object.prototype.toLocaleString], which
    calls [toString]; an own property named [toLocaleString] or [toString]
    hides the inherited method and, not being callable, makes the call
    throw.  On an array it calls [toLocaleString] on every element that is
    not [undefined] or [null].  The text returned depends on the locale and
    is kept as the value the method was called on. *)
Fixpoint toLocaleString_throws (v : jsval) : bool :=
  match v with
  | JUndefined | JNull => true
  | JBool _ | JNum _ | JStr _ => false
  | JArr l =>
      (fix any (l : list jsval) : bool :=
         match l with
         | [] => false
         | x :: rest =>
             match x with
             | JUndefined | JNull => false
             | _ => toLocaleString_throws x
             end || any rest
         end) l
  | JObj m =>
      bool_decide (is_Some (m !! js "toLocaleString"))
      || bool_decide (is_Some (m !! js "toString"))
  end.

Definition call_toLocaleString (v : jsval) : completion jsval :=
  if toLocaleString_throws v then Throw TypeErrorObj else Return v.

(** The function component: [Return None] is [return null]. *)
Definition ResultsDisplay (results : jsval) : completion (option view) :=
  if negb (truthy results) then Return None else
  guard ← prop results (js "analysis");
  if negb (truthy guard) then Return None else
  analysis ← prop results (js "analysis");
  metadata ← prop results (js "metadata");
  filename ← prop metadata (js "filename");
  overall_score ← prop analysis (js "overall_score");
  keyword_score ← prop analysis (js "keyword_score");
  tech_skill_score ← prop analysis (js "tech_skill_score");
  keyword_matches ← prop analysis (js "keyword_matches");
  keyword_misses ← prop analysis (js "keyword_misses");
  tech_skill_matches ← prop analysis (js "tech_skill_matches");
  tech_skill_misses ← prop analysis (js "tech_skill_misses");
  structure ← prop analysis (js "structure");
  found ← prop structure (js "sections_found");
  found_length ← prop found (js "length");
  some_found ← gt_zero found_length;
  sections ← (if some_found : bool then call_join found (js ", ")
              else Return (js "None detected"));
  strong_verbs ← prop structure (js "strong_verbs_count");
  recs ← prop analysis (js "recommendations");
  items ← call_map recs;
  resume_len ← prop metadata (js "resume_length");
  resume_len_text ← call_toLocaleString resume_len;
  job_len ← prop metadata (js "job_description_length");
  job_len_text ← call_toLocaleString job_len;
  job_keywords ← prop metadata (js "total_job_keywords");
  job_tech_skills ← prop metadata (js "total_job_tech_skills");
  Return (Some
    {| filename := filename;
       main_score := {| score := overall_score; label := js "Overall Match" |};
       sub_scores := [ {| score := keyword_score; label := js "Keywords" |};
                       {| score := tech_skill_score; label := js "Tech Skills" |} ];
       keyword_grid := [ {| keywords := keyword_matches; type := js "found" |};
                         {| keywords := keyword_misses; type := js "missing" |} ];
       skill_grid := [ {| keywords := tech_skill_matches; type := js "found" |};
                       {| keywords := tech_skill_misses; type := js "missing" |} ];
       sections_found := sections;
       strong_verbs_count := strong_verbs;
       recommendations := items;
       resume_length := resume_len_text;
       job_description_length := job_len_text;
       total_job_keywords := job_keywords;
       total_job_tech_skills := job_tech_skills |}).

End Body.

End ResultsDisplay.

(** *** The inner components of [ResultsDisplay.js]

    [getScoreColor], [ScoreCircle] and [KeywordList] are defined inside
    [ResultsDisplay]; React calls the two components on the props of the
    element tree after [ResultsDisplay] has returned.

    This module holds the component functions only: what each returns or
    throws when it is called.  What React does with the returned elements,
    and in particular its refusal of a plain object as a child, is in
    [React.mount] below; the page shows a tree only if [React.mount]
    yields one. *)
Module Render.

Section Children.

(** [ToNumber(s) >= k] and [ToNumber(s) > 0] for a string [s]: the numeric
    reading of a string is binary floating point and stays a parameter. *)
Variable string_ge : jsstring -> Z -> bool.
Variable string_gt_zero : jsstring -> bool.

(** [v >= k] for an integer literal [k]. *)
Definition ge (v : jsval) (k : Z) : completion bool :=
  match v with
  | JUndefined => Return false
  | JNull => Return (k <=? 0)
  | JBool b => Return (k <=? (if b then 1 else 0))
  | JNum n => Return (k <=? n)
  | JStr s => Return (string_ge s k)
  | JArr _ => s ← ToString v; Return (string_ge s k)
  | JObj _ => _ ← ToString v; Return false
  end.

Definition getScoreColor (score : jsval) : completion jsstring :=
  excellent ← ge score 80;
  if excellent : bool then Return (js "excellent") else
  good ← ge score 60;
  if good : bool then Return (js "good") else
  fair ← ge score 40;
  if fair : bool then Return (js "fair") else
  Return (js "poor").

(** What [ScoreCircle] renders: the class of the circle, the value in front
    of the percent sign, and the label. *)
Record ScoreCircleView : Type :=
  { circle : jsstring; value : jsval; caption : jsstring }.

Definition ScoreCircle (props : ResultsDisplay.ScoreCircle)
    : completion ScoreCircleView :=
  color ← getScoreColor (ResultsDisplay.score props);
  Return {| circle := color; value := ResultsDisplay.score props;
            caption := ResultsDisplay.label props |}.

(** What [KeywordList] renders under its title: one tag per keyword, each
    with its index as React key, or the [None found] paragraph. *)
Inductive KeywordListBody : Type :=
| Tags (items : list (nat * jsval))
| NoneFound.

Record KeywordListView : Type := { section_class : jsstring; content : KeywordListBody }.

(** [v.map((x, index) => f index x)]: only an array has the method. *)
Definition array_map {B} (f : nat -> jsval -> B) (v : jsval) : completion (list B) :=
  match v with
  | JArr l => Return (imap f l)
  | _ => Throw TypeErrorObj
  end.

Definition KeywordList (props : ResultsDisplay.KeywordList)
    : completion KeywordListView :=
  keywords_length ← prop (ResultsDisplay.keywords props) (js "length");
  some ← ResultsDisplay.gt_zero string_gt_zero keywords_length;
  content ← (if some : bool
             then items ← array_map (fun index keyword => (index, keyword))
                            (ResultsDisplay.keywords props);
                  Return (Tags items)
             else Return NoneFound);
  Return {| section_class := ResultsDisplay.type props; content := content |}.

(** The page of results with its inner components rendered, in document
    order. *)
Record tree : Type :=
  { report : ResultsDisplay.view;
    main_circle : ScoreCircleView;
    sub_circles : list ScoreCircleView;
    keyword_lists : list KeywordListView;
    skill_lists : list KeywordListView }.

Definition render (results : jsval) : completion (option tree) :=
  returned ← ResultsDisplay.ResultsDisplay string_gt_zero results;
  match returned with
  | None => Return None
  | Some view =>
      main ← ScoreCircle (ResultsDisplay.main_score view);
      subs ← mapM ScoreCircle (ResultsDisplay.sub_scores view);
      keyword_lists ← mapM KeywordList (ResultsDisplay.keyword_grid view);
      skill_lists ← mapM KeywordList (ResultsDisplay.skill_grid view);
      Return (Some {| report := view; main_circle := main; sub_circles := subs;
                      keyword_lists := keyword_lists; skill_lists := skill_lists |})
  end.

End Children.

End Render.

(** *** React: placing the element tree on the page

    [Render.render] calls the component functions.  React, which calls
    them, also checks every value that the markup puts between tags: a
    string or a number becomes text, a boolean, [null] or [undefined]
    nothing, an array its elements in turn, and a plain object makes React
    throw (Objects are not valid as a React child).  The functions are
    called and the children checked in document order, and the first throw
    ends the rendering. *)
Module React.

Fixpoint valid_child (v : jsval) : bool :=
  match v with
  | JObj _ => false
  | JArr l =>
      (fix all (l : list jsval) : bool :=
         match l with
         | [] => true
         | x :: rest => valid_child x && all rest
         end) l
  | _ => true
  end.

(** What ends a rendering: a throw of a component function, or a value
    that is not a valid child. *)
Inductive crash : Type :=
| Threw (e : thrown)
| InvalidChild (v : jsval).

Inductive mounted (A : Type) : Type :=
| Mounted (a : A)
| Crashed (c : crash).
Arguments Mounted {A} a.
Arguments Crashed {A} c.

#[global] Instance mounted_ret : MRet mounted := fun A a => Mounted a.

#[global] Instance mounted_bind : MBind mounted := fun A B k m =>
  match m with
  | Mounted a => k a
  | Crashed c => Crashed c
  end.

Definition call {A} (c : completion A) : mounted A :=
  match c with
  | Return a => Mounted a
  | Throw e => Crashed (Threw e)
  end.

Definition child (v : jsval) : mounted unit :=
  if valid_child v then Mounted tt else Crashed (InvalidChild v).

Section Mount.

Variable string_ge : jsstring -> Z -> bool.
Variable string_gt_zero : jsstring -> bool.

(** [<ScoreCircle ... />]: the function, then its child [{score}]. *)
Definition circle (props : ResultsDisplay.ScoreCircle)
    : mounted Render.ScoreCircleView :=
  c ← call (Render.ScoreCircle string_ge props);
  _ ← child (Render.value c);
  Mounted c.

(** [<KeywordList ... />]: the function, then the child [{keyword}] of each
    tag. *)
Definition keyword_list (props : ResultsDisplay.KeywordList)
    : mounted Render.KeywordListView :=
  l ← call (Render.KeywordList string_gt_zero props);
  _ ← match Render.content l with
      | Render.Tags items => mapM (fun item => child (snd item)) items
      | Render.NoneFound => Mounted []
      end;
  Mounted l.

Definition mount (results : jsval) : mounted (option Render.tree) :=
  returned ← call (ResultsDisplay.ResultsDisplay string_gt_zero results);
  match returned with
  | None => Mounted None
  | Some view =>
      _ ← child (ResultsDisplay.filename view);
      main ← circle (ResultsDisplay.main_score view);
      subs ← mapM circle (ResultsDisplay.sub_scores view);
      keyword_lists ← mapM keyword_list (ResultsDisplay.keyword_grid view);
      skill_lists ← mapM keyword_list (ResultsDisplay.skill_grid view);
      _ ← child (ResultsDisplay.strong_verbs_count view);
      _ ← mapM (fun item => child (snd item)) (ResultsDisplay.recommendations view);
      _ ← child (ResultsDisplay.total_job_keywords view);
      _ ← child (ResultsDisplay.total_job_tech_skills view);
      Mounted (Some {| Render.report := view; Render.main_circle := main;
                       Render.sub_circles := subs;
                       Render.keyword_lists := keyword_lists;
                       Render.skill_lists := skill_lists |})
  end.

(** The results section of [App]: the mounted [ResultsDisplay] when
    [results] is truthy, nothing otherwise. *)
Definition results_block (st : AppState) : mounted (option Render.tree) :=
  match displayed_results st with
  | Some r => mount r
  | None => Mounted None
  end.

(** Whether [App] in state [st] renders without a throw.  Nothing but the
    results section can throw: the other markup of [App], [FileUploader]
    and [JobInput] reads strings and numbers of their own state. *)
Definition renders (st : AppState) : bool :=
  match results_block st with
  | Mounted _ => true
  | Crashed _ => false
  end.

End Mount.

End React.

(** [{results && <ResultsDisplay results={results} />}] of [App]. *)
Definition results_section (string_gt_zero : jsstring -> bool) (st : AppState)
    : completion (option ResultsDisplay.view) :=
  match displayed_results st with
  | Some r => ResultsDisplay.ResultsDisplay string_gt_zero r
  | None => Return None
  end.

(** ** The client as a transition system

    [app] is the state of [App]; [inflight] holds the promises of the calls
    of [analyzeResume] whose [await] has not resumed yet.  Each step is one
    event the rendered page can deliver, guarded by the [disabled] attributes
    and conditional rendering of [App.js] and [FileUploader.js].  [handleDrop]
    does not look at [disabled], and the style sheets are not part of the
    sources, so a drop is possible in every state, also while an analysis is
    in flight.  The local state of the uploader ([dragActive]) does not reach
    [App] and is left out.  [Client] is the state of [App] alone: the file
    list of the uploader's hidden input, which [removeFile] clears and
    [handleReset] does not, and whether the tree is still mounted are added
    by [Page] below. *)
Record Client : Type :=
  { app : AppState; inflight : list (promise jsval thrown) }.

Definition initialClient : Client := {| app := initialState; inflight := [] |}.

(** [FileUploader] is rendered with [onFileSelect={handleFileSelect}]. *)
Definition apply_effect (e : FileUploader.effect) (st : AppState) : AppState :=
  match e with
  | FileUploader.OnFileSelect file => handleFileSelect file st
  | FileUploader.Alert _ | FileUploader.Nothing => st
  end.

Section Steps.

Variable env : option jsstring.
Variable engine_text : jsstring.

Inductive step : Client -> Client -> Prop :=
| step_drop c files :
    step c {| app := apply_effect (FileUploader.handleDrop files) (app c);
              inflight := inflight c |}
| step_input_change c files :
    isAnalyzing (app c) = false ->
    step c {| app := apply_effect (FileUploader.handleInputChange files) (app c);
              inflight := inflight c |}
| step_remove_file c :
    is_Some (selectedFile (app c)) ->
    isAnalyzing (app c) = false ->
    step c {| app := apply_effect FileUploader.removeFile (app c);
              inflight := inflight c |}
| step_job_change c value :
    isAnalyzing (app c) = false ->
    step c {| app := handleJobDescriptionChange value (app c);
              inflight := inflight c |}
| step_analyze c world :
    analyze_disabled (app c) = false ->
    step c {| app := fst (handleAnalyze_begin (app c));
              inflight :=
                inflight c ++
                match snd (handleAnalyze_begin (app c)) with
                | Some (file, text) => [analyzeResume env file text world]
                | None => []
                end |}
| step_settle c before t outcome after :
    inflight c = before ++ Settles t outcome :: after ->
    step c {| app := handleAnalyze_resume engine_text outcome (app c);
              inflight := before ++ after |}
| step_reset c :
    reset_rendered (app c) = true ->
    isAnalyzing (app c) = false ->
    step c {| app := handleReset (app c); inflight := inflight c |}.

Inductive reachable : Client -> Prop :=
| reachable_initial : reachable initialClient
| reachable_step c c' : reachable c -> step c c' -> reachable c'.

End Steps.

(** ** The page around the client

    Two things of the real page lie outside [Client]: the file list held by
    the hidden file input of the uploader, which the browser sets when a
    file is picked and which [removeFile] clears by [value = ''], and
    whether the tree is still mounted.  A throw while [App] renders is
    caught by no component of these sources, and React then takes the whole
    tree off the page ([index.js], which mounts [App], is not among the
    sources; React's behaviour without an error boundary is assumed), after
    which no event arrives any more. *)
Record Page : Type :=
  { client : Client; input_files : list File.t; mounted : bool }.

Definition initialPage : Page :=
  {| client := initialClient; input_files := []; mounted := true |}.

Section PageSteps.

Variable env : option jsstring.
Variable engine_text : jsstring.
Variable string_ge : jsstring -> Z -> bool.
Variable string_gt_zero : jsstring -> bool.

(** The page after an event: the new client, the new file list of the
    input, and whether the re-rendering went through. *)
Definition page_after (c : Client) (files : list File.t) : Page :=
  {| client := c; input_files := files;
     mounted := React.renders string_ge string_gt_zero (app c) |}.

Inductive page_step : Page -> Page -> Prop :=
| page_drop p files :
    mounted p = true ->
    page_step p
      (page_after
         {| app := apply_effect (FileUploader.handleDrop files) (app (client p));
            inflight := inflight (client p) |}
         (input_files p))
| page_input_change p files :
    mounted p = true ->
    isAnalyzing (app (client p)) = false ->
    page_step p
      (page_after
         {| app := apply_effect (FileUploader.handleInputChange files) (app (client p));
            inflight := inflight (client p) |}
         files)
| page_remove_file p :
    mounted p = true ->
    is_Some (selectedFile (app (client p))) ->
    isAnalyzing (app (client p)) = false ->
    page_step p
      (page_after
         {| app := apply_effect FileUploader.removeFile (app (client p));
            inflight := inflight (client p) |}
         [])
| page_job_change p value :
    mounted p = true ->
    isAnalyzing (app (client p)) = false ->
    page_step p
      (page_after
         {| app := handleJobDescriptionChange value (app (client p));
            inflight := inflight (client p) |}
         (input_files p))
| page_analyze p world :
    mounted p = true ->
    analyze_disabled (app (client p)) = false ->
    page_step p
      (page_after
         {| app := fst (handleAnalyze_begin (app (client p)));
            inflight :=
              inflight (client p) ++
              match snd (handleAnalyze_begin (app (client p))) with
              | Some (file, text) => [analyzeResume env file text world]
              | None => []
              end |}
         (input_files p))
| page_settle p before t outcome after :
    mounted p = true ->
    inflight (client p) = before ++ Settles t outcome :: after ->
    page_step p
      (page_after
         {| app := handleAnalyze_resume engine_text outcome (app (client p));
            inflight := before ++ after |}
         (input_files p))
| page_reset p :
    mounted p = true ->
    reset_rendered (app (client p)) = true ->
    isAnalyzing (app (client p)) = false ->
    page_step p
      (page_after
         {| app := handleReset (app (client p)); inflight := inflight (client p) |}
         (input_files p)).

Inductive reachable_page : Page -> Prop :=
| reachable_page_initial : reachable_page initialPage
| reachable_page_step p p' : reachable_page p -> page_step p p' -> reachable_page p'.

End PageSteps.

(** ** Requests as they leave the client *)

(** The request of [analyzeResume] as the world sees it. *)
Definition analyzeResume_request (env : option jsstring)
    (resumeFile : File.t) (jobDescription : jsstring) : axios.Request :=
  axios.build (api env) axios.POST (js "/api/analyze")
    (analyzeResume_formData resumeFile jobDescription)
    {| axios.headers := [(js "Content-Type", js "multipart/form-data")];
       axios.own_timeout := None |}.

Definition get_request (env : option jsstring) (path : jsstring) : axios.Request :=
  axios.build (api env) axios.GET path []
    {| axios.headers := []; axios.own_timeout := None |}.

(** ** Predicates of the statements *)

(** What the uploader lets through. *)
Definition acceptable (file : File.t) : Prop :=
  File.type file ∈ FileUploader.allowedTypes
  /\ (File.size file <= FileUploader.maxSize)%N.

Record client_inv (c : Client) : Prop :=
  { inv_busy : isAnalyzing (app c) = true ->
               results (app c) = JNull /\ error (app c) = None
               /\ exists p, inflight c = [p];
    inv_quiet : isAnalyzing (app c) = false -> inflight c = [];
    inv_output : results (app c) <> JNull -> error (app c) = None;
    inv_file : forall file, selectedFile (app c) = Some file -> acceptable file }.

(** The record an answer of the capability endpoint has to carry: the two
    accepted formats and the cap of 16 (MiB). *)
Definition reports_capabilities (v : jsval) : Prop :=
  prop v (js "supported_formats") = Return (JArr [JStr (js "pdf"); JStr (js "docx")])
  /\ prop v (js "max_file_size_mb") = Return (JNum 16).

(** The ways a run of [handleAnalyze] ends, each with the in-flight flag
    off: a report other than [null] is stored and the error is [null]; a
    non-empty message is stored and the report is [null]; or, when the call
    resolved with [null], nothing is stored at all. *)
Definition Completed (data : jsval) (st : AppState) : Prop :=
  data <> JNull /\ results st = data /\ error st = None /\ isAnalyzing st = false.

Definition Failed (st : AppState) : Prop :=
  (exists message, error st = Some message /\ message <> [])
  /\ results st = JNull /\ isAnalyzing st = false.

Definition NothingStored (st : AppState) : Prop :=
  results st = JNull /\ error st = None /\ isAnalyzing st = false.

(** How a run that was in the analyzing state ends, by what the call
    settled to. *)
Definition ends_as (outcome : settled jsval thrown) (st : AppState) : Prop :=
  match outcome with
  | Fulfilled JNull => NothingStored st
  | Fulfilled data => Completed data st
  | Rejected _ => Failed st
  end.

Definition connection_message : jsstring :=
  js "Unable to connect to the server. Please try again.".

Definition error_response (status : Z) (body : jsval) : axios.Error :=
  {| axios.response := Some {| axios.data := body; axios.status := status |};
     axios.request := true |}.

Definition wire_names : list jsstring :=
  [js "overall_score"; js "keyword_score"; js "tech_skill_score";
   js "keyword_matches"; js "keyword_misses";
   js "tech_skill_matches"; js "tech_skill_misses";
   js "structure"; js "recommendations"; js "metadata"].

(** The top-level fields are exactly the ten wire names. *)
Definition flat_shape (fields : gmap jsstring jsval) : Prop :=
  dom fields = list_to_set wire_names.

#[global] Instance flat_shape_dec fields : Decision (flat_shape fields).
Proof. unfold flat_shape. apply _. Defined.

(** ** Sample inputs *)

Definition sample_pdf : File.t :=
  {| File.name := js "resume.pdf"; File.type := js "application/pdf";
     File.size := 120000 |}.

Definition pdf_of_size (n : N) : File.t :=
  {| File.name := js "resume.pdf"; File.type := js "application/pdf"; File.size := n |}.

Definition text_file : File.t :=
  {| File.name := js "notes.txt"; File.type := js "text/plain"; File.size := 10 |}.

Definition with_inputs (file : option File.t) (text : jsstring) : AppState :=
  setJobDescription text (setSelectedFile file initialState).

(** Two blanks, fifty letters, a blank and a line feed. *)
Definition padded_fifty : jsstring :=
  js "  " ++ repeat 97%N 50 ++ [32%N; 10%N].

Definition padded_forty_nine : jsstring :=
  js "  " ++ repeat 97%N 49 ++ [32%N; 10%N].

Definition fifty_blanks : jsstring := repeat 32%N 50.

(** A world whose capability endpoint answers after 120 ms with the record
    of the server, and a world that refuses every connection. *)
Definition capabilities_body : jsval :=
  JObj {[ js "supported_formats" := JArr [JStr (js "pdf"); JStr (js "docx")];
          js "max_file_size_mb" := JNum 16;
          js "max_file_size_bytes" := JNum 16777216 ]}.

Definition answering_world (status : Z) (body : jsval) : axios.Request -> axios.Network :=
  fun _ => axios.Answers 120 {| axios.data := body; axios.status := status |}.

Definition refusing_world : axios.Request -> axios.Network :=
  fun _ => axios.Fails 3.

Definition slow_world : axios.Request -> axios.Network :=
  fun _ => axios.Answers 45000 {| axios.data := JObj ∅; axios.status := 200 |}.

(** The client after a PDF was dropped, fifty letters (padded with blanks)
    were typed and the analyze button was pressed. *)
Definition analyzing_client (world : axios.Request -> axios.Network) : Client :=
  {| app := fst (handleAnalyze_begin (with_inputs (Some sample_pdf) padded_fifty));
     inflight := [analyzeResume None sample_pdf (repeat 97%N 50) world] |}.

Definition unsupported_body : jsval :=
  JObj {[ js "error" := JStr (js "Unsupported file format") ]}.

Definition sample_metadata : jsval :=
  JObj {[ js "filename" := JStr (js "resume.pdf");
          js "resume_length" := JNum 2400;
          js "job_description_length" := JNum 50;
          js "total_job_keywords" := JNum 3;
          js "total_job_tech_skills" := JNum 2 ]}.

Definition sample_structure : jsval :=
  JObj {[ js "sections_found" := JArr [JStr (js "experience"); JStr (js "skills")];
          js "strong_verbs_count" := JNum 4 ]}.

Definition sample_analysis_fields : gmap jsstring jsval :=
  {[ js "overall_score" := JNum 67;
     js "keyword_score" := JNum 67;
     js "tech_skill_score" := JNum 50;
     js "keyword_matches" := JArr [JStr (js "backend"); JStr (js "team")];
     js "keyword_misses" := JArr [JStr (js "mentoring")];
     js "tech_skill_matches" := JArr [JStr (js "python")];
     js "tech_skill_misses" := JArr [JStr (js "kubernetes")];
     js "structure" := sample_structure;
     js "recommendations" := JArr [JStr (js "Add kubernetes to your skills.")] ]}.

(** The report nested under [analysis], beside [metadata]. *)
Definition nested_response : gmap jsstring jsval :=
  {[ js "analysis" := JObj sample_analysis_fields; js "metadata" := sample_metadata ]}.

(** The same report as a flat record: the nine analysis fields and
    [metadata] at the top level. *)
Definition flat_response : gmap jsstring jsval :=
  <[ js "metadata" := sample_metadata ]> sample_analysis_fields.

Definition never_positive : jsstring -> bool := fun _ => false.

(** A successful answer of the analysis endpoint. *)
Definition ok_body : jsval := JObj nested_response.

(** ** Tactics *)

(** One statement of the body of [ResultsDisplay] that did not throw. *)
Ltac bound_value H :=
  match type of H with
  | mbind _ ?c = Return _ =>
      let E := fresh "E" in
      destruct c eqn:E; simpl in H; [|discriminate H]
  end.

(** ** Further predicates, and the typed report *)

Definition blank (s : jsstring) : Prop := Forall (fun c => is_white_space c = true) s.

(** Every promise in flight comes from a call of [analyzeResume], and
    whenever the page is busy or shows an output its inputs are complete. *)
Record client_inv2 (env : option jsstring) (c : Client) : Prop :=
  { inv_calls : Forall (fun p => exists file text world,
                          p = analyzeResume env file text world) (inflight c);
    inv_ready : isAnalyzing (app c) = true \/ results (app c) <> JNull
                \/ error (app c) <> None ->
                isReadyToAnalyze (app c) = true }.

(** A computation that throws nothing but the engine's [TypeError]. *)
Definition only_TypeError {A} (c : completion A) : Prop :=
  forall e, c = Throw e -> e = TypeErrorObj.

Definition nullish (v : jsval) : Prop := v = JUndefined \/ v = JNull.

(** The classes of [getScoreColor], from worst to best. *)
Definition color_rank (color : jsstring) : nat :=
  if decide (color = js "excellent") then 3
  else if decide (color = js "good") then 2
  else if decide (color = js "fair") then 1
  else 0.

(** A report as the wire format types it. *)
Record Report : Type :=
  { r_overall_score : Z; r_keyword_score : Z; r_tech_skill_score : Z;
    r_keyword_matches : list jsstring; r_keyword_misses : list jsstring;
    r_tech_skill_matches : list jsstring; r_tech_skill_misses : list jsstring;
    r_sections_found : list jsstring; r_strong_verbs_count : Z;
    r_recommendations : list jsstring;
    r_filename : jsstring; r_resume_length : Z; r_job_description_length : Z;
    r_total_job_keywords : Z; r_total_job_tech_skills : Z }.

Definition strings (l : list jsstring) : jsval := JArr (map JStr l).

(** The response body that carries a report in the shape [ResultsDisplay]
    reads: the analysis under [analysis], beside [metadata]. *)
Definition analysis_of (r : Report) : gmap jsstring jsval :=
  {[ js "overall_score" := JNum (r_overall_score r);
     js "keyword_score" := JNum (r_keyword_score r);
     js "tech_skill_score" := JNum (r_tech_skill_score r);
     js "keyword_matches" := strings (r_keyword_matches r);
     js "keyword_misses" := strings (r_keyword_misses r);
     js "tech_skill_matches" := strings (r_tech_skill_matches r);
     js "tech_skill_misses" := strings (r_tech_skill_misses r);
     js "structure" :=
       JObj {[ js "sections_found" := strings (r_sections_found r);
               js "strong_verbs_count" := JNum (r_strong_verbs_count r) ]};
     js "recommendations" := strings (r_recommendations r) ]}.

Definition metadata_of (r : Report) : gmap jsstring jsval :=
  {[ js "filename" := JStr (r_filename r);
     js "resume_length" := JNum (r_resume_length r);
     js "job_description_length" := JNum (r_job_description_length r);
     js "total_job_keywords" := JNum (r_total_job_keywords r);
     js "total_job_tech_skills" := JNum (r_total_job_tech_skills r) ]}.

Definition body_of (r : Report) : jsval :=
  JObj {[ js "analysis" := JObj (analysis_of r); js "metadata" := JObj (metadata_of r) ]}.

(** The names separated by [sep]. *)
Fixpoint separated (sep : jsstring) (l : list jsstring) : jsstring :=
  match l with
  | [] => []
  | [x] => x
  | x :: rest => x ++ sep ++ separated sep rest
  end.

Definition view_of (r : Report) : ResultsDisplay.view :=
  {| ResultsDisplay.filename := JStr (r_filename r);
     ResultsDisplay.main_score :=
       {| ResultsDisplay.score := JNum (r_overall_score r);
          ResultsDisplay.label := js "Overall Match" |};
     ResultsDisplay.sub_scores :=
       [ {| ResultsDisplay.score := JNum (r_keyword_score r);
            ResultsDisplay.label := js "Keywords" |};
         {| ResultsDisplay.score := JNum (r_tech_skill_score r);
            ResultsDisplay.label := js "Tech Skills" |} ];
     ResultsDisplay.keyword_grid :=
       [ {| ResultsDisplay.keywords := strings (r_keyword_matches r);
            ResultsDisplay.type := js "found" |};
         {| ResultsDisplay.keywords := strings (r_keyword_misses r);
            ResultsDisplay.type := js "missing" |} ];
     ResultsDisplay.skill_grid :=
       [ {| ResultsDisplay.keywords := strings (r_tech_skill_matches r);
            ResultsDisplay.type := js "found" |};
         {| ResultsDisplay.keywords := strings (r_tech_skill_misses r);
            ResultsDisplay.type := js "missing" |} ];
     ResultsDisplay.sections_found :=
       match r_sections_found r with
       | [] => js "None detected"
       | _ => separated (js ", ") (r_sections_found r)
       end;
     ResultsDisplay.strong_verbs_count := JNum (r_strong_verbs_count r);
     ResultsDisplay.recommendations :=
       imap (fun index x => (Z.of_nat index + 1, JStr x)) (r_recommendations r);
     ResultsDisplay.resume_length := JNum (r_resume_length r);
     ResultsDisplay.job_description_length := JNum (r_job_description_length r);
     ResultsDisplay.total_job_keywords := JNum (r_total_job_keywords r);
     ResultsDisplay.total_job_tech_skills := JNum (r_total_job_tech_skills r) |}.

(** What [KeywordList] shows for a list of strings. *)
Definition list_body (l : list jsstring) : Render.KeywordListBody :=
  match l with
  | [] => Render.NoneFound
  | _ => Render.Tags (imap (fun index x => (index, JStr x)) l)
  end.

(** ** Further sample inputs *)

Definition huge_text_file : File.t :=
  {| File.name := js "dump.txt"; File.type := js "text/plain";
     File.size := 900000000 |}.

Definition docx_file : File.t :=
  {| File.name := js "cv.docx";
     File.type := js "application/vnd.openxmlformats-officedocument.wordprocessingml.document";
     File.size := 52000 |}.

(** The client after the server answered the analysis of
    [analyzing_client] with [ok_body]. *)
Definition completed_client : Client :=
  {| app := handleAnalyze_resume [] (Fulfilled ok_body)
              (app (analyzing_client (answering_world 200 ok_body)));
     inflight := [] |}.

(** The page after: a PDF dropped, the text typed, the analyze button
    pressed, a DOCX dropped while the call was in flight, and the call
    resolved with the report of the PDF. *)
Definition busy_page : Page :=
  page_after (fun _ _ => false) never_positive
    (analyzing_client (answering_world 200 ok_body)) [].

Definition stale_page : Page :=
  page_after (fun _ _ => false) never_positive
    {| app := handleAnalyze_resume [] (Fulfilled ok_body)
                (handleFileSelect (Some docx_file) (app (client busy_page)));
       inflight := [] |} [].

(** The page after: a PDF picked through the file input, the text typed,
    the analyze button pressed and the call resolved with its report. *)
Definition picked_and_analyzed : Page :=
  page_after (fun _ _ => false) never_positive
    {| app := handleAnalyze_resume [] (Fulfilled ok_body)
                (app (analyzing_client (answering_world 200 ok_body)));
       inflight := [] |} [sample_pdf].

(** The sample report without its list of missing keywords. *)
Definition body_without_misses : jsval :=
  JObj {[ js "analysis" := JObj (delete (js "keyword_misses") sample_analysis_fields);
          js "metadata" := sample_metadata ]}.

(** * Properties *)

(** ** Strings *)

Lemma length_trimStart (s : jsstring) : (length (trimStart s) <= length s)%nat.
Proof.
  induction s as [|c s IH]; simpl; [lia|].
  destruct (is_white_space c); simpl; lia.
Qed.

Lemma length_trim (s : jsstring) : (length (trim s) <= length s)%nat.
Proof.
  unfold trim, trimEnd. rewrite length_rev.
  etransitivity; [apply length_trimStart|]. rewrite length_rev.
  apply length_trimStart.
Qed.

(** The [!jobDescription] test of [handleAnalyze] is subsumed by the length
    test: an empty string trims to an empty string. *)
Lemma too_short_test (s : jsstring) :
  negb (str_truthy s) || bool_decide (length (trim s) < 50)%nat
  = bool_decide (length (trim s) < 50)%nat.
Proof.
  destruct s as [|c s]; [reflexivity|]. reflexivity.
Qed.

(** ** The submission gate of [App] *)

Lemma handleAnalyze_begin_submits (st : AppState) (file : File.t) :
  selectedFile st = Some file ->
  (50 <= length (trim (jobDescription st)))%nat ->
  handleAnalyze_begin st
  = (setResults JNull (setError None (setIsAnalyzing true st)),
     Some (file, trim (jobDescription st))).
Proof.
  intros Hfile Hlen. unfold handleAnalyze_begin. rewrite Hfile, too_short_test.
  rewrite bool_decide_eq_false_2 by lia. reflexivity.
Qed.

Lemma handleAnalyze_begin_too_short (st : AppState) (file : File.t) :
  selectedFile st = Some file ->
  (length (trim (jobDescription st)) < 50)%nat ->
  handleAnalyze_begin st = (setError (Some too_short_message) st, None).
Proof.
  intros Hfile Hlen. unfold handleAnalyze_begin. rewrite Hfile, too_short_test.
  rewrite bool_decide_eq_true_2 by lia. reflexivity.
Qed.

Lemma handleAnalyze_begin_no_file (st : AppState) :
  selectedFile st = None ->
  handleAnalyze_begin st = (setError (Some no_file_message) st, None).
Proof. intros Hfile. unfold handleAnalyze_begin. rewrite Hfile. reflexivity. Qed.

Lemma isReadyToAnalyze_spec (st : AppState) :
  isReadyToAnalyze st = true
  <-> is_Some (selectedFile st) /\ (50 <= length (trim (jobDescription st)))%nat.
Proof.
  unfold isReadyToAnalyze. destruct (selectedFile st) as [file|].
  - rewrite bool_decide_eq_true. split; [intros H; split; [by eexists|done]|by intros [_ H]].
  - split; [done|]. intros [[? H] _]. discriminate H.
Qed.

Lemma submits_iff (st : AppState) :
  is_Some (snd (handleAnalyze_begin st))
  <-> is_Some (selectedFile st) /\ (50 <= length (trim (jobDescription st)))%nat.
Proof.
  destruct (selectedFile st) as [file|] eqn:Hfile.
  - destruct (decide (50 <= length (trim (jobDescription st)))%nat) as [Hlen|Hlen].
    + rewrite (handleAnalyze_begin_submits st file Hfile Hlen). simpl.
      split; [intros _; split; [by eexists|done]|intros _; by eexists].
    + rewrite (handleAnalyze_begin_too_short st file Hfile) by lia. simpl.
      split; [intros [? H]; discriminate H|intros [_ H]; lia].
  - rewrite (handleAnalyze_begin_no_file st Hfile). simpl.
    split; [intros [? H]; discriminate H|intros [[? H] _]; discriminate H].
Qed.

(** C2.  The client submits an analysis request exactly when a file is
    selected and the trimmed job description has at least 50 characters; the
    readiness flag of the analyze button is the same condition.  With a file
    selected, a trimmed length of exactly 50 issues the call of
    [analyzeResume] on the file and the trimmed text, and a trimmed length of
    49 issues no call and stores the too-short message instead. *)
Theorem C2_submission_gate (st : AppState) :
  (is_Some (snd (handleAnalyze_begin st))
   <-> is_Some (selectedFile st) /\ (50 <= length (trim (jobDescription st)))%nat)
  /\ (isReadyToAnalyze st = true <-> is_Some (snd (handleAnalyze_begin st)))
  /\ (forall file, selectedFile st = Some file ->
        length (trim (jobDescription st)) = 50%nat ->
        snd (handleAnalyze_begin st) = Some (file, trim (jobDescription st)))
  /\ (forall file, selectedFile st = Some file ->
        length (trim (jobDescription st)) = 49%nat ->
        snd (handleAnalyze_begin st) = None
        /\ error (fst (handleAnalyze_begin st)) = Some too_short_message).
Proof.
  split; [apply submits_iff|].
  split; [rewrite isReadyToAnalyze_spec, submits_iff; done|].
  split.
  - intros file Hfile Hlen.
    rewrite (handleAnalyze_begin_submits st file Hfile) by lia. reflexivity.
  - intros file Hfile Hlen.
    rewrite (handleAnalyze_begin_too_short st file Hfile) by lia. done.
Qed.

Lemma C2_submission_gate_witness :
  snd (handleAnalyze_begin (with_inputs (Some sample_pdf) padded_fifty))
  = Some (sample_pdf, repeat 97%N 50)
  /\ snd (handleAnalyze_begin (with_inputs (Some sample_pdf) padded_forty_nine)) = None
  /\ error (fst (handleAnalyze_begin (with_inputs (Some sample_pdf) padded_forty_nine)))
     = Some too_short_message.
Proof.
  split.
  - apply (proj1 (proj2 (proj2 (C2_submission_gate
             (with_inputs (Some sample_pdf) padded_fifty)))) sample_pdf);
      reflexivity.
  - apply (proj2 (proj2 (proj2 (C2_submission_gate
             (with_inputs (Some sample_pdf) padded_forty_nine)))) sample_pdf);
      reflexivity.
Defined.

(** ** The validity indicator of [JobInput] *)

(** C3.  On a job description of fifty blanks the indicator of [JobInput],
    which compares the untrimmed length, reports the text valid and shows
    its ready mark, while [App] finds the input not ready and
    [handleAnalyze] stores the too-short message without issuing a call. *)
Theorem C3_indicator_counts_untrimmed :
  JobInput.isValid fifty_blanks = true
  /\ JobInput.shows_ready fifty_blanks = true
  /\ JobInput.shows_invalid fifty_blanks = false
  /\ length (trim fifty_blanks) = 0%nat
  /\ isReadyToAnalyze (with_inputs (Some sample_pdf) fifty_blanks) = false
  /\ handleAnalyze_begin (with_inputs (Some sample_pdf) fifty_blanks)
     = (setError (Some too_short_message) (with_inputs (Some sample_pdf) fifty_blanks),
        None).
Proof. repeat split. Qed.

(** The indicator and the gate differ exactly on the strings whose
    untrimmed length reaches 50 and whose trimmed length does not. *)
Lemma indicator_vs_gate (file : File.t) (value : jsstring) :
  JobInput.isValid value = isReadyToAnalyze (with_inputs (Some file) value)
  <-> ~ ((length (trim value) < 50)%nat /\ (50 <= length value)%nat).
Proof.
  unfold JobInput.isValid, JobInput.minLength, JobInput.characterCount,
    isReadyToAnalyze. simpl.
  pose proof (length_trim value) as Hle.
  destruct (decide (50 <= length value)%nat) as [H1|H1];
    destruct (decide (50 <= length (trim value))%nat) as [H2|H2].
  - rewrite !bool_decide_eq_true_2 by done. split; [lia|done].
  - rewrite bool_decide_eq_true_2, bool_decide_eq_false_2 by done.
    split; [done|]. intros H. exfalso. apply H. lia.
  - lia.
  - rewrite !bool_decide_eq_false_2 by done. split; [lia|done].
Qed.

(** ** The checks of [FileUploader] *)

Lemma handleFileSelect_allowed_size (file : File.t) :
  File.type file ∈ FileUploader.allowedTypes ->
  FileUploader.handleFileSelect (Some file)
  = if (FileUploader.maxSize <? File.size file)%N
    then FileUploader.Alert (js "File size must be less than 16MB.")
    else FileUploader.OnFileSelect (Some file).
Proof.
  intros Hty. unfold FileUploader.handleFileSelect.
  rewrite bool_decide_eq_true_2 by done. reflexivity.
Qed.

(** C4.  A PDF of exactly 16 MiB (16 * 1024 * 1024 = 16777216 bytes) passes
    the size check of the uploader, whose test is [file.size > maxSize]: it
    is handed to [onFileSelect] and becomes the selected file of [App]; one
    byte more is refused with the message that the size must be less than
    16MB. *)
Theorem C4_exactly_16MiB_accepted :
  FileUploader.maxSize = 16777216%N
  /\ FileUploader.handleFileSelect (Some (pdf_of_size 16777216))
     = FileUploader.OnFileSelect (Some (pdf_of_size 16777216))
  /\ selectedFile (apply_effect
                     (FileUploader.handleFileSelect (Some (pdf_of_size 16777216)))
                     initialState)
     = Some (pdf_of_size 16777216)
  /\ FileUploader.handleFileSelect (Some (pdf_of_size 16777217))
     = FileUploader.Alert (js "File size must be less than 16MB.").
Proof. repeat split. Qed.

(** ** Input changes clear the output *)

(** After [handleFileSelect] (a selection or, with [null], a removal)
    and after [handleJobDescriptionChange], the stored results and the
    stored error are both [null], so neither a report nor an error message
    is displayed; the uploader reaches [App] only through [onFileSelect],
    so this holds after each of its handlers that changes the selected file. *)
Lemma input_change_clears_output (st : AppState) :
  (forall file : option File.t,
     results (handleFileSelect file st) = JNull
     /\ error (handleFileSelect file st) = None
     /\ selectedFile (handleFileSelect file st) = file
     /\ displayed_results (handleFileSelect file st) = None
     /\ displayed_error (handleFileSelect file st) = None)
  /\ (forall value : jsstring,
        results (handleJobDescriptionChange value st) = JNull
        /\ error (handleJobDescriptionChange value st) = None
        /\ jobDescription (handleJobDescriptionChange value st) = value
        /\ displayed_results (handleJobDescriptionChange value st) = None
        /\ displayed_error (handleJobDescriptionChange value st) = None)
  /\ (forall e : FileUploader.effect,
        selectedFile (apply_effect e st) = selectedFile st
        \/ (results (apply_effect e st) = JNull /\ error (apply_effect e st) = None)).
Proof.
  split; [|split].
  - intros file. repeat split.
  - intros value. repeat split.
  - intros [|msg|file]; simpl; auto.
Qed.

(** ** The invariant of the client *)

Lemma uploader_passes (f g : option File.t) :
  FileUploader.handleFileSelect f = FileUploader.OnFileSelect g ->
  exists file, f = Some file /\ g = Some file /\ acceptable file.
Proof.
  unfold FileUploader.handleFileSelect. destruct f as [file|]; [|discriminate].
  destruct (bool_decide (File.type file ∈ FileUploader.allowedTypes)) eqn:Hty;
    simpl; [|discriminate].
  destruct (FileUploader.maxSize <? File.size file)%N eqn:Hsz; [discriminate|].
  intros [= <-]. exists file. repeat split.
  - by apply bool_decide_eq_true in Hty.
  - by apply N.ltb_ge in Hsz.
Qed.

Lemma uploader_rejects_type (file : File.t) :
  File.type file ∉ FileUploader.allowedTypes ->
  FileUploader.handleFileSelect (Some file)
  = FileUploader.Alert (js "Please select a PDF or DOCX file.").
Proof.
  intros Hty. unfold FileUploader.handleFileSelect.
  rewrite bool_decide_eq_false_2 by done. reflexivity.
Qed.

Lemma inv_initial : client_inv initialClient.
Proof. split; simpl; try done. Qed.

(** A file event of the uploader keeps the invariant, whatever the state of
    the analysis. *)
Lemma inv_effect (c : Client) (f : option File.t) :
  client_inv c ->
  (forall file, f = Some file -> acceptable file) ->
  client_inv {| app := handleFileSelect f (app c); inflight := inflight c |}.
Proof.
  intros [Hbusy Hquiet Hout Hfile] Hf. split; simpl; try done.
  intros Hb. destruct (Hbusy Hb) as (_ & _ & Hp). done.
Qed.

Lemma inv_uploader (c : Client) (e : FileUploader.effect) (f : option File.t) :
  e = FileUploader.handleFileSelect f \/ e = FileUploader.Nothing ->
  client_inv c ->
  client_inv {| app := apply_effect e (app c); inflight := inflight c |}.
Proof.
  intros He Hinv. destruct e as [|msg|g]; simpl; try (by destruct c).
  destruct He as [He|He]; [|discriminate]. symmetry in He.
  apply uploader_passes in He as (file & -> & -> & Hok).
  apply inv_effect; [done|]. by intros ? [= <-].
Qed.

Section Invariant.

Variable env : option jsstring.
Variable engine_text : jsstring.

Lemma inv_step (c c' : Client) :
  client_inv c -> step env engine_text c c' -> client_inv c'.
Proof.
  intros Hinv Hstep. destruct Hstep as
    [c files|c files Hidle|c Hsel Hidle|c value Hidle|c world Hen
    |c before t outcome after Hin|c Hshown Hidle].
  - apply (inv_uploader c _ (head files)); [|done].
    destruct files; [by right|by left].
  - apply (inv_uploader c _ (head files)); [|done].
    destruct files; [by right|by left].
  - apply inv_effect; [done|]. intros ? [=].
  - destruct Hinv as [Hbusy Hquiet Hout Hfile]. split; simpl; try done.
    intros Hb. congruence.
  - unfold analyze_disabled in Hen. apply orb_false_iff in Hen as [Hready Hidle].
    apply negb_false_iff in Hready.
    pose proof (proj1 (isReadyToAnalyze_spec _) Hready) as [[file Hfile] Hlen].
    rewrite (handleAnalyze_begin_submits _ file Hfile Hlen).
    destruct Hinv as [Hbusy Hquiet Hout Hfile']. split; simpl; try done.
    intros _. rewrite (Hquiet Hidle). repeat split. by eexists.
  - destruct Hinv as [Hbusy Hquiet Hout Hfile].
    destruct (isAnalyzing (app c)) eqn:Hb.
    + destruct (Hbusy eq_refl) as (Hres & Herr & p & Hp).
      rewrite Hp in Hin.
      assert (before = [] /\ after = []) as [-> ->].
      { destruct before as [|x [|y before]]; simplify_eq/=; [done|..];
          by destruct before. }
      destruct outcome as [data|err]; split; simpl; done.
    + rewrite (Hquiet eq_refl) in Hin. by destruct before.
  - destruct Hinv as [Hbusy Hquiet Hout Hfile]. split; simpl; try done.
    intros Hb. congruence.
Qed.

Lemma reachable_inv (c : Client) : reachable env engine_text c -> client_inv c.
Proof.
  induction 1 as [|c c' _ IH Hstep]; [apply inv_initial|].
  by apply (inv_step c c').
Qed.

End Invariant.

(** C5.  A file whose MIME type is neither of the two allowed ones is
    refused by the uploader on every path (file picker and drop): the
    handler alerts, [onFileSelect] is not called and the state of [App],
    with its selected file, stays as it was.  In every reachable state of
    the client the selected file, if any, has one of the two allowed
    types. *)
Theorem C5_unsupported_type_rejected
    (env : option jsstring) (engine_text : jsstring) (file : File.t) :
  File.type file <> js "application/pdf" ->
  File.type file
  <> js "application/vnd.openxmlformats-officedocument.wordprocessingml.document" ->
  (forall rest e,
     e = FileUploader.handleFileSelect (Some file)
     \/ e = FileUploader.handleDrop (file :: rest)
     \/ e = FileUploader.handleInputChange (file :: rest) ->
     e = FileUploader.Alert (js "Please select a PDF or DOCX file.")
     /\ forall st, apply_effect e st = st)
  /\ (forall c, reachable env engine_text c ->
        selectedFile (app c) <> Some file
        /\ forall f, selectedFile (app c) = Some f ->
             File.type f = js "application/pdf"
             \/ File.type f
                = js "application/vnd.openxmlformats-officedocument.wordprocessingml.document").
Proof.
  intros Hpdf Hdocx.
  assert (File.type file ∉ FileUploader.allowedTypes) as Hty.
  { unfold FileUploader.allowedTypes. rewrite !not_elem_of_cons.
    repeat split; try done. apply not_elem_of_nil. }
  assert (forall f, acceptable f ->
            File.type f = js "application/pdf"
            \/ File.type f
               = js "application/vnd.openxmlformats-officedocument.wordprocessingml.document")
    as Hallowed.
  { intros f [Hf _]. unfold FileUploader.allowedTypes in Hf.
    rewrite !elem_of_cons in Hf. destruct Hf as [Hf|[Hf|Hf]]; auto.
    by apply elem_of_nil in Hf. }
  split.
  - intros rest e He.
    assert (e = FileUploader.handleFileSelect (Some file)) as ->
      by (destruct He as [->|[->| ->]]; reflexivity).
    rewrite (uploader_rejects_type file Hty). done.
  - intros c Hreach. apply reachable_inv in Hreach as [_ _ _ Hfile]. split.
    + intros Hsel. destruct (Hallowed file (Hfile file Hsel)); done.
    + intros f Hsel. apply Hallowed, Hfile, Hsel.
Qed.

Lemma C5_unsupported_type_rejected_witness :
  FileUploader.handleDrop [text_file; sample_pdf]
  = FileUploader.Alert (js "Please select a PDF or DOCX file.")
  /\ apply_effect (FileUploader.handleDrop [text_file; sample_pdf])
       (with_inputs (Some sample_pdf) padded_fifty)
     = with_inputs (Some sample_pdf) padded_fifty.
Proof.
  assert (File.type text_file <> js "application/pdf") as H1
    by (vm_compute; discriminate).
  assert (File.type text_file
          <> js "application/vnd.openxmlformats-officedocument.wordprocessingml.document")
    as H2 by (vm_compute; discriminate).
  destruct (proj1 (C5_unsupported_type_rejected None [] text_file H1 H2)
              [sample_pdf] (FileUploader.handleDrop [text_file; sample_pdf]))
    as [Halert Hsame].
  - right. left. reflexivity.
  - split; [exact Halert|apply Hsame].
Defined.

(** ** Requests through the [api] instance *)

Lemma run_settles (rq : axios.Request) (net : axios.Network) :
  (0 < axios.req_timeout rq)%N ->
  exists t s, axios.run rq net = Settles t s /\ (t <= axios.req_timeout rq)%N.
Proof.
  intros Hpos. unfold axios.run.
  assert ((0 <? axios.req_timeout rq)%N = true) as -> by by apply N.ltb_lt.
  destruct net as [elapsed r|elapsed| |]; simpl.
  - destruct (axios.req_timeout rq <=? elapsed)%N eqn:Hexp.
    + eexists _, _. split; [reflexivity|lia].
    + apply N.leb_gt in Hexp.
      destruct (axios.validateStatus (axios.status r));
        eexists _, _; (split; [reflexivity|lia]).
  - destruct (axios.req_timeout rq <=? elapsed)%N eqn:Hexp.
    + eexists _, _. split; [reflexivity|lia].
    + apply N.leb_gt in Hexp. eexists _, _. split; [reflexivity|lia].
  - eexists _, _. split; [reflexivity|lia].
  - eexists _, _. split; [reflexivity|lia].
Qed.

(** A request that is still unanswered when its timeout elapses rejects at
    the timeout with no response attached. *)
Lemma run_times_out (rq : axios.Request) (net : axios.Network) :
  (0 < axios.req_timeout rq)%N ->
  match net with
  | axios.Answers elapsed _ | axios.Fails elapsed => (axios.req_timeout rq < elapsed)%N
  | axios.Silent => True
  | axios.NotSent => False
  end ->
  axios.run rq net = Settles (axios.req_timeout rq) (Rejected axios.no_response).
Proof.
  intros Hpos Hlate. unfold axios.run.
  assert ((0 <? axios.req_timeout rq)%N = true) as -> by by apply N.ltb_lt.
  destruct net as [elapsed r|elapsed| |]; simpl; try done.
  - assert ((axios.req_timeout rq <=? elapsed)%N = true) as ->
      by (apply N.leb_le; lia). reflexivity.
  - assert ((axios.req_timeout rq <=? elapsed)%N = true) as ->
      by (apply N.leb_le; lia). reflexivity.
Qed.

Lemma analyzeResume_settles env file text world :
  exists t outcome,
    analyzeResume env file text world = Settles t outcome /\ (t <= 30000)%N.
Proof.
  unfold analyzeResume, axios.post.
  destruct (run_settles (analyzeResume_request env file text)
              (world (analyzeResume_request env file text)))
    as (t & s & Hrun & Ht); [simpl; lia|].
  fold (analyzeResume_request env file text). rewrite Hrun.
  destruct s as [r|e]; eexists _, _; (split; [reflexivity|exact Ht]).
Qed.

Lemma fallback_reports_capabilities : reports_capabilities supported_formats_fallback.
Proof. split; reflexivity. Qed.

(** A 2xx answer with an empty record is passed on as it is: the caller
    then receives neither the formats nor the cap. *)
Lemma C6_counterexample_empty_body :
  ~ (forall (env : option jsstring) (world : axios.Request -> axios.Network),
       exists t v,
         getSupportedFormats env world = Settles t (Fulfilled v)
         /\ reports_capabilities v).
Proof.
  intros H. destruct (H None (answering_world 200 (JObj ∅))) as (t & v & Hcall & Hrep).
  assert (getSupportedFormats None (answering_world 200 (JObj ∅))
          = Settles 120 (Fulfilled (JObj ∅))) as Hrun by reflexivity.
  rewrite Hrun in Hcall. injection Hcall as _ <-.
  destruct Hrep as [Hformats _]. discriminate Hformats.
Qed.

(** C6 (amended).  [getSupportedFormats] always resolves, within the
    timeout of the instance, and never rejects: when the request resolves
    it passes on the body of the response unchanged, whatever that body is,
    and when the request rejects, for whatever reason, it resolves with the
    constant record, which lists [pdf] and [docx] and the cap 16.  So the
    caller receives the two formats and the cap after every failure, and
    after a success exactly when the body that the endpoint sent reports
    them. *)
Theorem C6_getSupportedFormats_passes_body
    (env : option jsstring) (world : axios.Request -> axios.Network) :
  (exists t v, getSupportedFormats env world = Settles t (Fulfilled v)
               /\ (t <= 30000)%N)
  /\ (forall t r,
        axios.get (api env) (js "/api/supported-formats") world = Settles t (Fulfilled r) ->
        getSupportedFormats env world = Settles t (Fulfilled (axios.data r)))
  /\ (forall t e,
        axios.get (api env) (js "/api/supported-formats") world = Settles t (Rejected e) ->
        getSupportedFormats env world = Settles t (Fulfilled supported_formats_fallback))
  /\ supported_formats_fallback
     = JObj {[ js "supported_formats" := JArr [JStr (js "pdf"); JStr (js "docx")];
               js "max_file_size_mb" := JNum 16 ]}
  /\ reports_capabilities supported_formats_fallback
  /\ (forall t v,
        getSupportedFormats env world = Settles t (Fulfilled v) ->
        reports_capabilities v
        <-> (exists e, axios.get (api env) (js "/api/supported-formats") world
                       = Settles t (Rejected e))
            \/ (exists r, axios.get (api env) (js "/api/supported-formats") world
                          = Settles t (Fulfilled r)
                          /\ reports_capabilities (axios.data r))).
Proof.
  pose (rq := get_request env (js "/api/supported-formats")).
  assert (axios.get (api env) (js "/api/supported-formats") world
          = axios.run rq (world rq)) as Hget by reflexivity.
  destruct (run_settles rq (world rq)) as (t & s & Hrun & Ht); [simpl; lia|].
  unfold getSupportedFormats. rewrite Hget, Hrun.
  split; [destruct s; by eexists _, _|].
  split; [by intros ? ? [= -> ->]|].
  split; [by intros ? ? [= -> ->]|].
  split; [reflexivity|].
  split; [apply fallback_reports_capabilities|].
  intros t' v. destruct s as [r|e]; intros [= -> <-].
  - split.
    + intros Hrep. right. by exists r.
    + intros [[e [=]]|(r' & [= <-] & Hrep)]. exact Hrep.
  - split.
    + intros _. left. by exists e.
    + intros _. apply fallback_reports_capabilities.
Qed.

Lemma C6_getSupportedFormats_passes_body_witness :
  getSupportedFormats None (answering_world 200 capabilities_body)
  = Settles 120 (Fulfilled capabilities_body)
  /\ getSupportedFormats None refusing_world
     = Settles 3 (Fulfilled supported_formats_fallback)
  /\ reports_capabilities capabilities_body.
Proof.
  split; [|split].
  - apply (proj1 (proj2 (C6_getSupportedFormats_passes_body None
                           (answering_world 200 capabilities_body)))
             120%N {| axios.data := capabilities_body; axios.status := 200 |}).
    reflexivity.
  - apply (proj1 (proj2 (proj2 (C6_getSupportedFormats_passes_body None refusing_world)))
             3%N axios.no_response).
    reflexivity.
  - apply (proj2 (proj2 (proj2 (proj2 (proj2
             (C6_getSupportedFormats_passes_body None
                (answering_world 200 capabilities_body))))))
             120%N capabilities_body eq_refl).
    right. exists {| axios.data := capabilities_body; axios.status := 200 |}.
    split; [reflexivity|split; reflexivity].
Defined.

(** C7.  The [api] instance is created with a timeout of 30000 ms, which is
    30 seconds, and no call overrides it: the request of each of the three
    service functions carries that timeout and its promise settles within
    30000 ms.  An analysis request that is still unanswered after 30000 ms
    is given up at that moment: [analyzeResume] rejects with the connection
    error and returns no data. *)
Theorem C7_requests_time_out_after_30s
    (env : option jsstring) (world : axios.Request -> axios.Network)
    (file : File.t) (text : jsstring) :
  axios.timeout (api env) = (30 * 1000)%N
  /\ axios.req_timeout (analyzeResume_request env file text) = 30000%N
  /\ (forall path, axios.req_timeout (get_request env path) = 30000%N)
  /\ (exists t outcome,
        analyzeResume env file text world = Settles t outcome /\ (t <= 30000)%N)
  /\ (exists t outcome,
        getSupportedFormats env world = Settles t outcome /\ (t <= 30000)%N)
  /\ (exists t outcome,
        healthCheck env world = Settles t outcome /\ (t <= 30000)%N)
  /\ (match world (analyzeResume_request env file text) with
      | axios.Answers elapsed _ | axios.Fails elapsed => (30000 < elapsed)%N
      | axios.Silent => True
      | axios.NotSent => False
      end ->
      analyzeResume env file text world
      = Settles 30000
          (Rejected (ErrorObj (js "Unable to connect to the server. Please try again.")))).
Proof.
  split; [reflexivity|]. split; [reflexivity|]. split; [reflexivity|].
  split; [apply analyzeResume_settles|].
  split; [|split].
  - unfold getSupportedFormats, axios.get.
    destruct (run_settles (get_request env (js "/api/supported-formats"))
                (world (get_request env (js "/api/supported-formats"))))
      as (t & s & Hrun & Ht); [simpl; lia|].
    fold (get_request env (js "/api/supported-formats")). rewrite Hrun.
    destruct s; eexists _, _; (split; [reflexivity|exact Ht]).
  - unfold healthCheck, axios.get.
    destruct (run_settles (get_request env (js "/api/health"))
                (world (get_request env (js "/api/health"))))
      as (t & s & Hrun & Ht); [simpl; lia|].
    fold (get_request env (js "/api/health")). rewrite Hrun.
    destruct s; eexists _, _; (split; [reflexivity|exact Ht]).
  - intros Hlate. unfold analyzeResume, axios.post.
    fold (analyzeResume_request env file text).
    rewrite (run_times_out (analyzeResume_request env file text)); [reflexivity|..].
    + simpl. lia.
    + exact Hlate.
Qed.

Lemma C7_requests_time_out_after_30s_witness :
  analyzeResume None sample_pdf (repeat 97%N 50) slow_world
  = Settles 30000
      (Rejected (ErrorObj (js "Unable to connect to the server. Please try again."))).
Proof.
  apply (proj2 (proj2 (proj2 (proj2 (proj2 (proj2
           (C7_requests_time_out_after_30s None slow_world sample_pdf
              (repeat 97%N 50)))))))).
  simpl. lia.
Defined.

(** ** The life cycle of one analysis *)

Lemma str_or_nonempty (a b : jsstring) : b <> [] -> str_or a b <> [].
Proof. intros Hb. unfold str_or. destruct a; simpl; done. Qed.

Lemma resume_from_analyzing (engine_text : jsstring)
    (outcome : settled jsval thrown) (st : AppState) :
  results st = JNull -> error st = None ->
  ends_as outcome (handleAnalyze_resume engine_text outcome st).
Proof.
  intros Hres Herr. destruct outcome as [data|err]; simpl.
  - destruct data; by repeat split.
  - repeat split; [|done]. eexists. split; [reflexivity|].
    by apply str_or_nonempty.
Qed.

(** The three endings exclude one another. *)
Lemma one_ending (st : AppState) :
  ~ ((exists data, Completed data st) /\ Failed st)
  /\ ~ ((exists data, Completed data st) /\ NothingStored st)
  /\ ~ (Failed st /\ NothingStored st).
Proof.
  split; [|split].
  - intros [(data & _ & _ & Hnone & _) ((m & Hsome & _) & _)]. congruence.
  - intros [(data & Hdata & Hres & _) (Hnull & _)]. congruence.
  - intros [((m & Hsome & _) & _) (_ & Hnone & _)]. congruence.
Qed.

(** A 2xx answer whose body is [null]: the run ends with results and error
    both [null], in neither of the two states of the claim. *)
Lemma C8_counterexample_null_body :
  ~ (forall (env : option jsstring) (engine_text : jsstring)
            (world : axios.Request -> axios.Network)
            (st st' : AppState) (file : File.t) (text : jsstring),
       handleAnalyze_begin st = (st', Some (file, text)) ->
       exists st'',
         handleAnalyze env engine_text world st = Some st''
         /\ ((results st'' <> JNull /\ error st'' = None)
             \/ (error st'' <> None /\ results st'' = JNull))).
Proof.
  intros H.
  destruct (H None [] (answering_world 200 JNull)
              (with_inputs (Some sample_pdf) padded_fifty) _ sample_pdf
              (repeat 97%N 50) eq_refl) as (st'' & Hrun & Hend).
  injection Hrun as <-. destruct Hend as [[Hres _]|[Herr _]]; [by apply Hres|by apply Herr].
Qed.

(** C8 (amended).  A run of [handleAnalyze] that passes validation first
    turns the in-flight flag on and clears the results and the error; the
    awaited call settles, within the timeout, and the run then ends, with
    the flag off, in exactly one of three ways: Completed (the response
    body, which is not [null], stored as results, error [null]), Failed (a
    message stored as error, results [null]) or, when the call resolved
    with the body [null], with results and error both [null].  The same
    holds when other events of the page arrive while the call is in
    flight, and in every reachable state of the client the results and the
    error are not both non-null. *)
Theorem C8_analysis_lifecycle_outcomes (env : option jsstring) (engine_text : jsstring) :
  (forall st st' file text world,
     handleAnalyze_begin st = (st', Some (file, text)) ->
     (isAnalyzing st' = true /\ results st' = JNull /\ error st' = None)
     /\ exists t outcome st'',
          analyzeResume env file text world = Settles t outcome
          /\ (t <= 30000)%N
          /\ handleAnalyze env engine_text world st = Some st''
          /\ st'' = handleAnalyze_resume engine_text outcome st'
          /\ isAnalyzing st'' = false
          /\ match outcome with
             | Fulfilled JNull => NothingStored st''
             | Fulfilled data => Completed data st''
             | Rejected _ => Failed st''
             end)
  /\ (forall c before t outcome after,
        reachable env engine_text c ->
        inflight c = before ++ Settles t outcome :: after ->
        (isAnalyzing (app c) = true /\ results (app c) = JNull /\ error (app c) = None)
        /\ match outcome with
           | Fulfilled JNull =>
               NothingStored (handleAnalyze_resume engine_text outcome (app c))
           | Fulfilled data =>
               Completed data (handleAnalyze_resume engine_text outcome (app c))
           | Rejected _ => Failed (handleAnalyze_resume engine_text outcome (app c))
           end)
  /\ (forall st,
        ~ ((exists data, Completed data st) /\ Failed st)
        /\ ~ ((exists data, Completed data st) /\ NothingStored st)
        /\ ~ (Failed st /\ NothingStored st))
  /\ (forall c, reachable env engine_text c ->
        ~ (results (app c) <> JNull /\ error (app c) <> None)).
Proof.
  split; [|split; [|split; [apply one_ending|]]].
  - intros st st' file text world Hbegin.
    assert (isAnalyzing st' = true /\ results st' = JNull /\ error st' = None)
      as (Hb & Hres & Herr).
    { unfold handleAnalyze_begin in Hbegin.
      destruct (selectedFile st); [|discriminate].
      destruct (_ || _); [discriminate|]. by injection Hbegin as <- _ _. }
    split; [done|].
    destruct (analyzeResume_settles env file text world) as (t & outcome & Hcall & Ht).
    exists t, outcome, (handleAnalyze_resume engine_text outcome st').
    unfold handleAnalyze. rewrite Hbegin, Hcall.
    repeat split; try done; [by destruct outcome|].
    apply (resume_from_analyzing engine_text outcome st' Hres Herr).
  - intros c before t outcome after Hreach Hin.
    apply reachable_inv in Hreach as [Hbusy Hquiet _ _].
    destruct (isAnalyzing (app c)) eqn:Hb.
    + destruct (Hbusy eq_refl) as (Hres & Herr & _). split; [done|].
      by apply (resume_from_analyzing engine_text outcome).
    + rewrite (Hquiet eq_refl) in Hin. by destruct before.
  - intros c Hreach [Hres Herr].
    apply reachable_inv in Hreach as [_ _ Hout _]. by apply Herr, Hout.
Qed.

Lemma analyzing_client_reachable (engine_text : jsstring) world :
  reachable None engine_text (analyzing_client world).
Proof.
  pose (c1 := {| app := handleFileSelect (Some sample_pdf) initialState;
                 inflight := [] |}).
  pose (c2 := {| app := with_inputs (Some sample_pdf) padded_fifty; inflight := [] |}).
  assert (reachable None engine_text c1) as H1.
  { apply (reachable_step _ _ initialClient); [apply reachable_initial|].
    apply (step_drop _ _ initialClient [sample_pdf]). }
  assert (reachable None engine_text c2) as H2.
  { apply (reachable_step _ _ c1); [exact H1|].
    apply (step_job_change _ _ c1 padded_fifty). reflexivity. }
  apply (reachable_step _ _ c2); [exact H2|].
  apply (step_analyze _ _ c2 world). reflexivity.
Qed.

Lemma C8_analysis_lifecycle_outcomes_witness :
  Completed ok_body
    (handleAnalyze_resume (js "engine") (Fulfilled ok_body)
       (fst (handleAnalyze_begin (with_inputs (Some sample_pdf) padded_fifty))))
  /\ Failed (handleAnalyze_resume (js "engine")
               (Rejected (ErrorObj
                  (js "Unable to connect to the server. Please try again.")))
               (app (analyzing_client refusing_world))).
Proof.
  split.
  - destruct (proj2 (proj1 (C8_analysis_lifecycle_outcomes None (js "engine"))
                (with_inputs (Some sample_pdf) padded_fifty) _ sample_pdf
                (repeat 97%N 50) (answering_world 200 ok_body) eq_refl))
      as (t & outcome & st'' & Hcall & _ & _ & Hst & _ & Hend).
    assert (outcome = Fulfilled ok_body) as -> by (by injection Hcall as _ <-).
    rewrite Hst in Hend. exact Hend.
  - apply (proj2 (proj1 (proj2 (C8_analysis_lifecycle_outcomes None (js "engine")))
                    (analyzing_client refusing_world) [] 3%N
                    (Rejected (ErrorObj
                       (js "Unable to connect to the server. Please try again.")))
                    [] (analyzing_client_reachable _ _) eq_refl)).
Defined.

(** ** How failures of the analysis surface *)

Lemma analyzeResume_rejected env file text world t error :
  axios.run (analyzeResume_request env file text)
    (world (analyzeResume_request env file text)) = Settles t (Rejected error) ->
  analyzeResume env file text world = Settles t (Rejected (analyzeResume_catch error)).
Proof.
  intros Hrun. unfold analyzeResume, axios.post.
  fold (analyzeResume_request env file text). by rewrite Hrun.
Qed.

Lemma resume_displays (engine_text message : jsstring) (st : AppState) :
  message <> [] ->
  error (handleAnalyze_resume engine_text (Rejected (ErrorObj message)) st) = Some message
  /\ displayed_error (handleAnalyze_resume engine_text (Rejected (ErrorObj message)) st)
     = Some message.
Proof.
  intros Hne. unfold displayed_error. simpl. unfold str_or.
  destruct message; [done|]. done.
Qed.

(** An error response whose body carries the [error] field with the empty
    string as its value: the field is present, and the message thrown is
    the fixed text, not the field. *)
Lemma C9_counterexample_empty_error_field :
  ~ (forall (status : Z) (fields : gmap jsstring jsval) (v : jsval),
       fields !! js "error" = Some v ->
       exists message,
         analyzeResume_catch (error_response status (JObj fields)) = ErrorObj message
         /\ v = JStr message).
Proof.
  intros H.
  assert (({[ js "error" := JStr [] ]} : gmap jsstring jsval) !! js "error"
          = Some (JStr [])) as Hfield by reflexivity.
  destruct (H 400 _ _ Hfield) as (message & Hc & Hv).
  injection Hv as <-. vm_compute in Hc. discriminate Hc.
Qed.

(** C9 (amended).  A failed call of [analyzeResume] always rejects, with
    what its [catch] block throws, and never returns data.  If the server
    answered with an error status and the [error] field of the body is a
    non-empty string, the message of the thrown [Error] is exactly that
    string; if the field reads as a falsy value (it is absent, or is the
    empty string, [null], [false] or 0), the message is [Analysis failed];
    if no response was received but the request was made, it is the
    connection message; if neither a response nor a request exists, it is
    [An unexpected error occurred].  In each of these four cases [App]
    stores and displays the thrown message unchanged. *)
Theorem C9_failures_surface_by_case
    (env : option jsstring) (engine_text : jsstring)
    (file : File.t) (text : jsstring) (world : axios.Request -> axios.Network)
    (t : N) (err : axios.Error) :
  axios.run (analyzeResume_request env file text)
    (world (analyzeResume_request env file text)) = Settles t (Rejected err) ->
  let shown (message : jsstring) :=
    analyzeResume_catch err = ErrorObj message
    /\ forall st,
         error (handleAnalyze_resume engine_text (Rejected (analyzeResume_catch err)) st)
         = Some message
         /\ displayed_error
              (handleAnalyze_resume engine_text (Rejected (analyzeResume_catch err)) st)
            = Some message in
  analyzeResume env file text world = Settles t (Rejected (analyzeResume_catch err))
  /\ (forall r s,
        axios.response err = Some r ->
        prop (axios.data r) (js "error") = Return (JStr s) -> s <> [] ->
        shown s)
  /\ (forall r v,
        axios.response err = Some r ->
        prop (axios.data r) (js "error") = Return v -> truthy v = false ->
        shown (js "Analysis failed"))
  /\ (axios.response err = None -> axios.request err = true ->
      shown connection_message)
  /\ (axios.response err = None -> axios.request err = false ->
      shown (js "An unexpected error occurred")).
Proof.
  intros Hrun shown. split; [by apply analyzeResume_rejected|].
  assert (forall message, analyzeResume_catch err = ErrorObj message ->
            message <> [] -> shown message) as Hshown.
  { intros message Hc Hne. split; [done|]. intros st. rewrite Hc.
    by apply resume_displays. }
  split; [|split; [|split]].
  - intros r s Hr Hp Hne. apply Hshown; [|done].
    unfold analyzeResume_catch. rewrite Hr, Hp. destruct s; [done|reflexivity].
  - intros r v Hr Hp Hv. apply Hshown; [|done].
    unfold analyzeResume_catch. by rewrite Hr, Hp, Hv.
  - intros Hr Hq. apply Hshown; [|done].
    unfold analyzeResume_catch. by rewrite Hr, Hq.
  - intros Hr Hq. apply Hshown; [|done].
    unfold analyzeResume_catch. by rewrite Hr, Hq.
Qed.

Lemma C9_failures_surface_by_case_witness :
  analyzeResume None sample_pdf (repeat 97%N 50) (answering_world 400 unsupported_body)
  = Settles 120 (Rejected (ErrorObj (js "Unsupported file format")))
  /\ analyzeResume_catch (error_response 400 unsupported_body)
     = ErrorObj (js "Unsupported file format")
  /\ analyzeResume_catch (error_response 400 (JObj ∅)) = ErrorObj (js "Analysis failed")
  /\ displayed_error
       (handleAnalyze_resume (js "engine")
          (Rejected (analyzeResume_catch (error_response 400 unsupported_body)))
          (with_inputs (Some sample_pdf) padded_fifty))
     = Some (js "Unsupported file format").
Proof.
  pose proof (C9_failures_surface_by_case None (js "engine") sample_pdf (repeat 97%N 50)
                (answering_world 400 unsupported_body) 120
                (error_response 400 unsupported_body) eq_refl)
    as (Hthrow & Hfield & _).
  pose proof (C9_failures_surface_by_case None (js "engine") sample_pdf (repeat 97%N 50)
                (answering_world 400 (JObj ∅)) 120
                (error_response 400 (JObj ∅)) eq_refl)
    as (_ & _ & Habsent & _).
  destruct (Hfield _ (js "Unsupported file format") eq_refl eq_refl) as [Hc Hshow];
    [discriminate|].
  destruct (Habsent _ JUndefined eq_refl eq_refl eq_refl) as [Hc' _].
  split; [exact Hthrow|]. split; [exact Hc|]. split; [exact Hc'|].
  apply Hshow.
Defined.

(** ** The shape of the record that [ResultsDisplay] renders *)

Lemma analysis_not_a_wire_name : js "analysis" ∉ wire_names.
Proof. apply (bool_decide_eq_false_1 (js "analysis" ∈ wire_names)). reflexivity. Qed.

Lemma flat_renders_nothing (string_gt_zero : jsstring -> bool)
    (fields : gmap jsstring jsval) :
  flat_shape fields ->
  ResultsDisplay.ResultsDisplay string_gt_zero (JObj fields) = Return None.
Proof.
  intros Hflat.
  assert (fields !! js "analysis" = None) as Hnone.
  { apply not_elem_of_dom. rewrite Hflat, elem_of_list_to_set.
    apply analysis_not_a_wire_name. }
  unfold ResultsDisplay.ResultsDisplay. simpl. rewrite Hnone. reflexivity.
Qed.

(** The guard of [ResultsDisplay]: anything but [return null] needs an
    object with a truthy [analysis] field. *)
Lemma guard_passed (string_gt_zero : jsstring -> bool) (results : jsval) :
  ResultsDisplay.ResultsDisplay string_gt_zero results <> Return None ->
  exists fields analysis,
    results = JObj fields /\ fields !! js "analysis" = Some analysis
    /\ truthy analysis = true.
Proof.
  unfold ResultsDisplay.ResultsDisplay. intros H.
  destruct (truthy results) eqn:Hres; [|done]. simpl in H.
  destruct results as [| |b|n|s|l|fields]; simpl in H; try done.
  destruct (fields !! js "analysis") as [analysis|] eqn:Ha; [|done].
  simpl in H. destruct (truthy analysis) eqn:Ht; [|done].
  by exists fields, analysis.
Qed.

(** The nested record renders, and its top-level fields are [analysis] and
    [metadata], not the ten wire names. *)
Lemma C1_counterexample_nested_response :
  ~ (forall (string_gt_zero : jsstring -> bool) (results : jsval)
            (v : ResultsDisplay.view),
       ResultsDisplay.ResultsDisplay string_gt_zero results = Return (Some v) ->
       exists fields, results = JObj fields /\ flat_shape fields).
Proof.
  intros H.
  assert (exists v, ResultsDisplay.ResultsDisplay never_positive (JObj nested_response)
                    = Return (Some v)) as [v Hv] by (eexists; reflexivity).
  destruct (H never_positive (JObj nested_response) v Hv) as (fields & [= <-] & Hflat).
  apply analysis_not_a_wire_name.
  apply (elem_of_list_to_set (C := gset jsstring)). rewrite <- Hflat.
  apply elem_of_dom. by eexists.
Qed.

Lemma map_snd_imap {A B} (f : nat -> B) (l : list A) :
  map snd (imap (fun i x => (f i, x)) l) = l.
Proof.
  revert f. induction l as [|x l IH]; intros f; [reflexivity|].
  simpl. f_equal. apply (IH (f ∘ S)).
Qed.

Lemma call_toLocaleString_returns (v w : jsval) :
  ResultsDisplay.call_toLocaleString v = Return w -> w = v.
Proof.
  unfold ResultsDisplay.call_toLocaleString.
  destruct (ResultsDisplay.toLocaleString_throws v); congruence.
Qed.

Lemma call_map_returns (v : jsval) (items : list (Z * jsval)) :
  ResultsDisplay.call_map v = Return items ->
  exists l, v = JArr l /\ items = imap (fun index x => (Z.of_nat index + 1, x)) l.
Proof.
  destruct v as [| |b|n|s|l|m]; simpl; try discriminate.
  intros [= <-]. by exists l.
Qed.

(** C1 (amended).  A response that [ResultsDisplay] renders is a record
    with a truthy top-level field [analysis], beside [metadata]: the three
    scores, the four term lists, [structure] and [recommendations] are read
    under [analysis] by their wire names, and the file name, the two lengths
    and the two totals under [metadata].  A flat record, whose top-level
    fields are exactly the ten wire names, is not rendered: the component
    returns [null]. *)
Theorem C1_rendered_record_is_nested
    (string_gt_zero : jsstring -> bool) (results : jsval) :
  (forall v, ResultsDisplay.ResultsDisplay string_gt_zero results = Return (Some v) ->
     exists fields analysis metadata structure,
       results = JObj fields
       /\ fields !! js "analysis" = Some analysis /\ truthy analysis = true
       /\ fields !! js "metadata" = Some metadata
       /\ prop analysis (js "overall_score")
          = Return (ResultsDisplay.score (ResultsDisplay.main_score v))
       /\ [prop analysis (js "keyword_score"); prop analysis (js "tech_skill_score")]
          = map (fun c => Return (ResultsDisplay.score c)) (ResultsDisplay.sub_scores v)
       /\ [prop analysis (js "keyword_matches"); prop analysis (js "keyword_misses")]
          = map (fun k => Return (ResultsDisplay.keywords k)) (ResultsDisplay.keyword_grid v)
       /\ [prop analysis (js "tech_skill_matches"); prop analysis (js "tech_skill_misses")]
          = map (fun k => Return (ResultsDisplay.keywords k)) (ResultsDisplay.skill_grid v)
       /\ prop analysis (js "structure") = Return structure
       /\ (exists found,
             prop structure (js "sections_found") = Return found
             /\ (ResultsDisplay.sections_found v = js "None detected"
                 \/ ResultsDisplay.call_join found (js ", ")
                    = Return (ResultsDisplay.sections_found v)))
       /\ prop structure (js "strong_verbs_count")
          = Return (ResultsDisplay.strong_verbs_count v)
       /\ prop analysis (js "recommendations")
          = Return (JArr (map snd (ResultsDisplay.recommendations v)))
       /\ prop metadata (js "filename") = Return (ResultsDisplay.filename v)
       /\ prop metadata (js "resume_length") = Return (ResultsDisplay.resume_length v)
       /\ prop metadata (js "job_description_length")
          = Return (ResultsDisplay.job_description_length v)
       /\ prop metadata (js "total_job_keywords")
          = Return (ResultsDisplay.total_job_keywords v)
       /\ prop metadata (js "total_job_tech_skills")
          = Return (ResultsDisplay.total_job_tech_skills v))
  /\ (forall fields, results = JObj fields -> flat_shape fields ->
        ResultsDisplay.ResultsDisplay string_gt_zero results = Return None).
Proof.
  split; [|intros fields -> Hflat; by apply flat_renders_nothing].
  intros v Hv.
  destruct (guard_passed string_gt_zero results) as (fields & analysis & -> & Ha & Ht);
    [by rewrite Hv|].
  unfold ResultsDisplay.ResultsDisplay in Hv. simpl in Hv.
  rewrite Ha in Hv. simpl in Hv. rewrite Ht in Hv. simpl in Hv.
  destruct (fields !! js "metadata") as [metadata|] eqn:Hm; [|discriminate Hv].
  simpl in Hv. repeat bound_value Hv. injection Hv as <-. simpl.
  apply call_toLocaleString_returns in E16 as ->.
  apply call_toLocaleString_returns in E18 as ->.
  apply call_map_returns in E14 as (l & -> & ->). rewrite map_snd_imap.
  exists fields, analysis, metadata, a7.
  rewrite E1, E2, E3, E4, E5, E6.
  repeat (split; [done|]). split; [|done].
  exists a8. split; [done|]. destruct a10; [by right|left]. by injection E11.
Qed.

Lemma C1_rendered_record_is_nested_witness :
  ResultsDisplay.ResultsDisplay never_positive (JObj flat_response) = Return None
  /\ exists v,
       ResultsDisplay.ResultsDisplay never_positive (JObj nested_response)
       = Return (Some v)
       /\ prop (JObj sample_analysis_fields) (js "overall_score")
          = Return (ResultsDisplay.score (ResultsDisplay.main_score v)).
Proof.
  split.
  - apply (proj2 (C1_rendered_record_is_nested never_positive (JObj flat_response))
             flat_response eq_refl).
    apply (bool_decide_eq_true_1 (flat_shape flat_response)). reflexivity.
  - eexists. split; [reflexivity|].
    destruct (proj1 (C1_rendered_record_is_nested never_positive (JObj nested_response))
                _ eq_refl)
      as (fields & analysis & _ & _ & [= <-] & Ha & _ & _ & Hscore & _).
    assert (nested_response !! js "analysis" = Some (JObj sample_analysis_fields))
      as Hlook by reflexivity.
    rewrite Hlook in Ha. injection Ha as <-. exact Hscore.
Defined.

(** * Further properties of the client *)

(** ** [String.prototype.trim] *)

Lemma trimStart_split (s : jsstring) :
  exists pre, s = pre ++ trimStart s /\ blank pre.
Proof.
  induction s as [|c s (pre & Hs & Hpre)]; [exists []; split; [done|constructor]|].
  simpl. destruct (is_white_space c) eqn:Hc.
  - exists (c :: pre). split; [simpl; by f_equal|unfold blank; by constructor].
  - exists []. split; [done|constructor].
Qed.

Lemma trimStart_head (s : jsstring) (c : N) :
  head (trimStart s) = Some c -> is_white_space c = false.
Proof.
  induction s as [|d s IH]; [done|]. simpl.
  destruct (is_white_space d) eqn:Hd; [done|]. by intros [= <-].
Qed.

Lemma trimStart_fixed (s : jsstring) :
  (forall c, head s = Some c -> is_white_space c = false) -> trimStart s = s.
Proof.
  destruct s as [|c s]; [done|]. intros H. simpl. by rewrite (H c).
Qed.

Lemma trimStart_suffix_last (s : jsstring) (c : N) :
  last (trimStart s) = Some c -> last s = Some c.
Proof.
  destruct (trimStart_split s) as (pre & Hs & _). intros Hlast.
  rewrite Hs, last_app, Hlast. done.
Qed.

Lemma head_rev {A} (l : list A) : head (rev l) = last l.
Proof.
  induction l as [|x l IH] using rev_ind; [done|].
  by rewrite rev_app_distr, last_snoc.
Qed.

Lemma last_rev' {A} (l : list A) : last (rev l) = head l.
Proof. by rewrite <- head_rev, rev_involutive. Qed.

Lemma trim_head (s : jsstring) (c : N) :
  head (trim s) = Some c -> is_white_space c = false.
Proof.
  unfold trim, trimEnd. rewrite head_rev. intros Hlast.
  apply trimStart_suffix_last in Hlast. rewrite last_rev' in Hlast.
  by apply (trimStart_head s).
Qed.

Lemma trim_last (s : jsstring) (c : N) :
  last (trim s) = Some c -> is_white_space c = false.
Proof.
  unfold trim, trimEnd. rewrite last_rev'. apply trimStart_head.
Qed.

(** [trim] only removes white space, and only at the two ends: the
    string is a run of white space, then its trimmed form, then a run of
    white space. *)
Theorem trim_removes_only_blank_ends (s : jsstring) :
  exists pre post, s = pre ++ trim s ++ post /\ blank pre /\ blank post.
Proof.
  destruct (trimStart_split s) as (pre & Hs & Hpre).
  destruct (trimStart_split (rev (trimStart s))) as (post & Hr & Hpost).
  exists pre, (rev post). split; [|split; [done|by apply Forall_rev]].
  unfold trim, trimEnd. rewrite <- rev_app_distr, <- Hr, rev_involutive. done.
Qed.

Lemma trim_idempotent (s : jsstring) : trim (trim s) = trim s.
Proof.
  unfold trim at 1. rewrite (trimStart_fixed (trim s)) by apply trim_head.
  unfold trimEnd. rewrite trimStart_fixed; [apply rev_involutive|].
  intros c. rewrite head_rev. apply trim_last.
Qed.
(** The trimmed string neither starts nor ends with white space, and
    trimming it again changes nothing. *)
Theorem trim_ends_not_blank (s : jsstring) :
  (forall c, head (trim s) = Some c -> is_white_space c = false)
  /\ (forall c, last (trim s) = Some c -> is_white_space c = false)
  /\ trim (trim s) = trim s.
Proof.
  split; [apply trim_head|]. split; [apply trim_last|apply trim_idempotent].
Qed.

(** ** [JobInput] and the readiness of [App] *)

(** X1.  Whenever [App] finds the inputs ready, the indicator of [JobInput]
    shows its ready mark and no warning: the indicator is never stricter
    than the button. *)
Theorem ready_implies_indicator_ready (st : AppState) :
  isReadyToAnalyze st = true ->
  JobInput.shows_ready (jobDescription st) = true
  /\ JobInput.shows_invalid (jobDescription st) = false.
Proof.
  intros Hready. apply isReadyToAnalyze_spec in Hready as [_ Hlen].
  pose proof (length_trim (jobDescription st)) as Hle.
  unfold JobInput.shows_invalid, JobInput.shows_ready, JobInput.isValid,
    JobInput.minLength, JobInput.characterCount.
  rewrite bool_decide_eq_true_2 by lia. done.
Qed.

Lemma ready_implies_indicator_ready_witness :
  JobInput.shows_ready padded_fifty = true
  /\ JobInput.shows_invalid padded_fifty = false.
Proof.
  apply (ready_implies_indicator_ready (with_inputs (Some sample_pdf) padded_fifty)).
  reflexivity.
Defined.

(** ** What [handleAnalyze] sends and what it leaves alone *)

(** X2.  The call that [handleAnalyze] issues carries the selected file and
    the trimmed job description: a text of at least 50 code units with no
    white space at either end, which trimming again would not change.  The
    stored job description keeps its white space. *)
Theorem submitted_text_is_trimmed (st st' : AppState) (file : File.t) (text : jsstring) :
  handleAnalyze_begin st = (st', Some (file, text)) ->
  selectedFile st = Some file
  /\ text = trim (jobDescription st)
  /\ (50 <= length text)%nat
  /\ trim text = text
  /\ (forall c, head text = Some c \/ last text = Some c -> is_white_space c = false)
  /\ jobDescription st' = jobDescription st
  /\ selectedFile st' = selectedFile st.
Proof.
  intros Hbegin.
  assert (is_Some (snd (handleAnalyze_begin st))) as Hsub by (rewrite Hbegin; by eexists).
  apply submits_iff in Hsub as [[f Hf] Hlen].
  rewrite (handleAnalyze_begin_submits st f Hf Hlen) in Hbegin.
  injection Hbegin as <- <- <-.
  repeat split; try done; [apply trim_idempotent|].
  intros c [H|H]; [by apply (trim_head (jobDescription st))
                  |by apply (trim_last (jobDescription st))].
Qed.

Lemma submitted_text_is_trimmed_witness :
  trim (repeat 97%N 50) = repeat 97%N 50
  /\ jobDescription (fst (handleAnalyze_begin (with_inputs (Some sample_pdf) padded_fifty)))
     = padded_fifty.
Proof.
  destruct (submitted_text_is_trimmed
              (with_inputs (Some sample_pdf) padded_fifty) _ sample_pdf
              (repeat 97%N 50) eq_refl)
    as (_ & _ & _ & Hidem & _ & Hkeep & _).
  split; [exact Hidem|exact Hkeep].
Defined.

(** X3.  A run of [handleAnalyze] that fails validation issues no call and
    changes nothing but the error: the selected file, the text, the
    in-flight flag and the stored results stay as they were.  The missing
    file is reported first, whatever the text. *)
Theorem validation_failure_touches_only_error (st : AppState) :
  snd (handleAnalyze_begin st) = None ->
  let st' := fst (handleAnalyze_begin st) in
  selectedFile st' = selectedFile st
  /\ jobDescription st' = jobDescription st
  /\ isAnalyzing st' = isAnalyzing st
  /\ results st' = results st
  /\ error st' = Some (match selectedFile st with
                       | Some _ => too_short_message
                       | None => no_file_message
                       end).
Proof.
  intros Hnone. destruct (selectedFile st) as [file|] eqn:Hfile.
  - destruct (decide (50 <= length (trim (jobDescription st)))%nat) as [Hlen|Hlen].
    + rewrite (handleAnalyze_begin_submits st file Hfile Hlen) in Hnone. discriminate.
    + rewrite (handleAnalyze_begin_too_short st file Hfile) by lia. by simpl.
  - rewrite (handleAnalyze_begin_no_file st Hfile). by simpl.
Qed.

Lemma validation_failure_touches_only_error_witness :
  error (fst (handleAnalyze_begin (with_inputs None padded_fifty)))
  = Some no_file_message
  /\ results (fst (handleAnalyze_begin (setResults ok_body (with_inputs None []))))
     = ok_body.
Proof.
  split.
  - apply (validation_failure_touches_only_error (with_inputs None padded_fifty)).
    reflexivity.
  - apply (validation_failure_touches_only_error
             (setResults ok_body (with_inputs None []))).
    reflexivity.
Defined.

(** ** The uploader *)

(** X4.  The uploader hands a file to [onFileSelect] exactly when its type
    is one of the two allowed ones and its size is at most [maxSize]; the
    type is checked first, so a file of another type gets the type alert
    whatever its size.  A drop or a picker change looks at the first file
    only: the files after it are never selected, and an empty list does
    nothing. *)
Theorem uploader_accepts_iff (file : File.t) (rest : list File.t) :
  (FileUploader.handleFileSelect (Some file) = FileUploader.OnFileSelect (Some file)
   <-> (File.type file = js "application/pdf"
        \/ File.type file
           = js "application/vnd.openxmlformats-officedocument.wordprocessingml.document")
       /\ (File.size file <= 16 * 1024 * 1024)%N)
  /\ (forall g, FileUploader.handleFileSelect (Some file) = FileUploader.OnFileSelect g ->
        g = Some file)
  /\ (File.type file ∉ FileUploader.allowedTypes ->
      FileUploader.handleFileSelect (Some file)
      = FileUploader.Alert (js "Please select a PDF or DOCX file."))
  /\ (File.type file ∈ FileUploader.allowedTypes ->
      (16 * 1024 * 1024 < File.size file)%N ->
      FileUploader.handleFileSelect (Some file)
      = FileUploader.Alert (js "File size must be less than 16MB."))
  /\ FileUploader.handleDrop (file :: rest) = FileUploader.handleFileSelect (Some file)
  /\ FileUploader.handleInputChange (file :: rest)
     = FileUploader.handleFileSelect (Some file)
  /\ FileUploader.handleDrop [] = FileUploader.Nothing
  /\ FileUploader.handleInputChange [] = FileUploader.Nothing
  /\ FileUploader.handleFileSelect None = FileUploader.Nothing.
Proof.
  assert (File.type file ∈ FileUploader.allowedTypes
          <-> File.type file = js "application/pdf"
              \/ File.type file
                 = js "application/vnd.openxmlformats-officedocument.wordprocessingml.document")
    as Hty.
  { unfold FileUploader.allowedTypes. rewrite !elem_of_cons, elem_of_nil. tauto. }
  split; [|split; [|split; [|split]]]; [| | | |done].
  - split.
    + intros H. apply uploader_passes in H as (f & [= <-] & _ & Hok & Hsz).
      split; [by apply Hty|exact Hsz].
    + intros [Hok Hsz]. rewrite handleFileSelect_allowed_size by by apply Hty.
      unfold FileUploader.maxSize.
      by assert ((16 * 1024 * 1024 <? File.size file)%N = false) as ->
        by (apply N.ltb_ge; lia).
  - intros g H. by apply uploader_passes in H as (f & [= <-] & -> & _).
  - apply uploader_rejects_type.
  - intros Hok Hsz. rewrite handleFileSelect_allowed_size by done.
    unfold FileUploader.maxSize.
    by assert ((16 * 1024 * 1024 <? File.size file)%N = true) as ->
      by (apply N.ltb_lt; lia).
Qed.

Lemma uploader_accepts_iff_witness :
  FileUploader.handleFileSelect (Some docx_file)
  = FileUploader.OnFileSelect (Some docx_file)
  /\ FileUploader.handleFileSelect (Some huge_text_file)
     = FileUploader.Alert (js "Please select a PDF or DOCX file.")
  /\ FileUploader.handleFileSelect (Some (pdf_of_size 16777217))
     = FileUploader.Alert (js "File size must be less than 16MB.").
Proof.
  split; [|split].
  - apply (proj1 (uploader_accepts_iff docx_file [])). split; [by right|]. simpl. lia.
  - apply (proj1 (proj2 (proj2 (uploader_accepts_iff huge_text_file [])))).
    apply (bool_decide_eq_false_1 (File.type huge_text_file ∈ FileUploader.allowedTypes)).
    reflexivity.
  - apply (proj1 (proj2 (proj2 (proj2 (uploader_accepts_iff (pdf_of_size 16777217) []))))).
    + apply (bool_decide_eq_true_1
               (File.type (pdf_of_size 16777217) ∈ FileUploader.allowedTypes)).
      reflexivity.
    + simpl. lia.
Defined.

(** ** More invariants of the client *)

Lemma isReadyToAnalyze_ext (st st' : AppState) :
  jobDescription st' = jobDescription st ->
  (is_Some (selectedFile st) -> is_Some (selectedFile st')) ->
  isReadyToAnalyze st = true -> isReadyToAnalyze st' = true.
Proof.
  rewrite !isReadyToAnalyze_spec. intros -> Hsel [H1 H2]. auto.
Qed.

Lemma inv2_initial env : client_inv2 env initialClient.
Proof.
  split; simpl; [constructor|]. intros [H|[H|H]]; done.
Qed.

Lemma inv2_uploader env (c : Client) (files : list File.t) (e : FileUploader.effect) :
  e = FileUploader.handleDrop files ->
  client_inv2 env c ->
  client_inv2 env {| app := apply_effect e (app c); inflight := inflight c |}.
Proof.
  intros He [Hcalls Hready]. destruct e as [|msg|g]; simpl; try (by split).
  split; simpl; [done|]. intros [Hb|[H|H]]; try done.
  assert (is_Some g) as Hg.
  { destruct files as [|f rest]; [discriminate|].
    change (FileUploader.handleDrop (f :: rest))
      with (FileUploader.handleFileSelect (Some f)) in He. symmetry in He.
    apply uploader_passes in He as (? & _ & -> & _). by eexists. }
  apply (isReadyToAnalyze_ext (app c)); [done|done|]. apply Hready. by left.
Qed.

Section Invariant2.

Variable env : option jsstring.
Variable engine_text : jsstring.

Lemma inv2_step (c c' : Client) :
  client_inv c -> client_inv2 env c -> step env engine_text c c' -> client_inv2 env c'.
Proof.
  intros Hinv Hinv2 Hstep. destruct Hstep as
    [c files|c files Hidle|c Hsel Hidle|c value Hidle|c world Hen
    |c before t outcome after Hin|c Hshown Hidle].
  - by apply (inv2_uploader env c files).
  - destruct Hinv2 as [Hcalls Hready].
    destruct (FileUploader.handleInputChange files); split; simpl; try done.
    intros [H|[H|H]]; congruence.
  - destruct Hinv2 as [Hcalls _]. split; simpl; [done|].
    intros [H|[H|H]]; congruence.
  - destruct Hinv2 as [Hcalls _]. split; simpl; [done|].
    intros [H|[H|H]]; congruence.
  - unfold analyze_disabled in Hen. apply orb_false_iff in Hen as [Hready Hidle].
    apply negb_false_iff in Hready.
    pose proof (proj1 (isReadyToAnalyze_spec _) Hready) as [[file Hfile] Hlen].
    rewrite (handleAnalyze_begin_submits _ file Hfile Hlen).
    destruct Hinv2 as [Hcalls _]. split; simpl.
    + apply Forall_app. split; [done|]. constructor; [|constructor]. by eexists _, _, _.
    + intros _. by apply (isReadyToAnalyze_ext (app c)).
  - destruct Hinv2 as [Hcalls Hready]. split; simpl.
    + rewrite Hin in Hcalls. apply Forall_app in Hcalls as [H1 H2].
      apply Forall_cons in H2 as [_ H2]. apply Forall_app. done.
    + intros _. apply (isReadyToAnalyze_ext (app c)).
      * by destruct outcome.
      * by destruct outcome.
      * apply Hready. left. destruct Hinv as [_ Hquiet _ _].
        destruct (isAnalyzing (app c)); [done|].
        rewrite (Hquiet eq_refl) in Hin. by destruct before.
  - destruct Hinv2 as [Hcalls _]. split; simpl; [done|].
    intros [H|[H|H]]; congruence.
Qed.

Lemma reachable_inv2 (c : Client) :
  reachable env engine_text c -> client_inv2 env c.
Proof.
  induction 1 as [|c c' Hreach IH Hstep]; [apply inv2_initial|].
  apply (inv2_step c c'); [by apply (reachable_inv env engine_text)|done|done].
Qed.

End Invariant2.

Lemma completed_client_reachable : reachable None [] completed_client.
Proof.
  apply (reachable_step _ _ (analyzing_client (answering_world 200 ok_body)));
    [apply analyzing_client_reachable|].
  apply (step_settle None [] (analyzing_client (answering_world 200 ok_body))
           [] 120%N (Fulfilled ok_body) []).
  reflexivity.
Qed.

(** X5.  In every reachable state the selected file, if there is one, is
    at most 16 MiB (16777216 bytes) large. *)
Theorem selected_file_within_limit
    (env : option jsstring) (engine_text : jsstring) (c : Client) (file : File.t) :
  reachable env engine_text c ->
  selectedFile (app c) = Some file ->
  (File.size file <= 16777216)%N.
Proof.
  intros Hreach Hsel. apply reachable_inv in Hreach as [_ _ _ Hfile].
  by destruct (Hfile file Hsel) as [_ Hsz].
Qed.

Lemma selected_file_within_limit_witness : (File.size sample_pdf <= 16777216)%N.
Proof.
  apply (selected_file_within_limit None [] completed_client sample_pdf
           completed_client_reachable eq_refl).
Defined.

(** X6.  At most one call of [analyzeResume] is in flight at any time, and
    one is in flight exactly while [isAnalyzing] is on. *)
Theorem one_call_in_flight
    (env : option jsstring) (engine_text : jsstring) (c : Client) :
  reachable env engine_text c ->
  length (inflight c) = (if isAnalyzing (app c) then 1 else 0)%nat.
Proof.
  intros Hreach. apply reachable_inv in Hreach as [Hbusy Hquiet _ _].
  destruct (isAnalyzing (app c)).
  - destruct (Hbusy eq_refl) as (_ & _ & p & ->). reflexivity.
  - by rewrite (Hquiet eq_refl).
Qed.

Lemma one_call_in_flight_witness :
  length (inflight (analyzing_client refusing_world)) = 1%nat
  /\ length (inflight completed_client) = 0%nat.
Proof.
  split.
  - apply (one_call_in_flight None [] (analyzing_client refusing_world)
             (analyzing_client_reachable _ _)).
  - apply (one_call_in_flight None [] completed_client completed_client_reachable).
Defined.

(** X7.  An analysis in flight always comes to an end: the pending call
    settles within 30000 ms, and the step that resumes [handleAnalyze]
    leads to a reachable state with the flag off and nothing in flight. *)
Theorem analysis_in_flight_ends
    (env : option jsstring) (engine_text : jsstring) (c : Client) :
  reachable env engine_text c ->
  isAnalyzing (app c) = true ->
  exists t outcome c',
    inflight c = [Settles t outcome] /\ (t <= 30000)%N
    /\ step env engine_text c c'
    /\ app c' = handleAnalyze_resume engine_text outcome (app c)
    /\ isAnalyzing (app c') = false /\ inflight c' = []
    /\ reachable env engine_text c'.
Proof.
  intros Hreach Hb.
  pose proof (reachable_inv env engine_text c Hreach) as [Hbusy _ _ _].
  pose proof (reachable_inv2 env engine_text c Hreach) as [Hcalls _].
  destruct (Hbusy Hb) as (_ & _ & p & Hp). rewrite Hp in Hcalls.
  apply Forall_cons in Hcalls as [(file & text & world & ->) _].
  destruct (analyzeResume_settles env file text world) as (t & outcome & Hcall & Ht).
  rewrite Hcall in Hp.
  assert (step env engine_text c
            {| app := handleAnalyze_resume engine_text outcome (app c);
               inflight := [] ++ [] |}) as Hstep
    by (by apply (step_settle env engine_text c [] t outcome [])).
  eexists t, outcome, _. repeat split; try done.
  - by destruct outcome.
  - by apply (reachable_step env engine_text c).
Qed.

Lemma analysis_in_flight_ends_witness :
  exists t outcome c',
    inflight (analyzing_client slow_world) = [Settles t outcome] /\ (t <= 30000)%N
    /\ step None [] (analyzing_client slow_world) c'
    /\ app c' = handleAnalyze_resume [] outcome (app (analyzing_client slow_world))
    /\ isAnalyzing (app c') = false /\ inflight c' = []
    /\ reachable None [] c'.
Proof.
  apply (analysis_in_flight_ends None [] (analyzing_client slow_world)
           (analyzing_client_reachable _ _) eq_refl).
Defined.

(** X8.  While an analysis is in flight the page shows neither a report
    nor an error, the reset button is not rendered and the analyze button
    is disabled. *)
Theorem busy_page_shows_nothing
    (env : option jsstring) (engine_text : jsstring) (c : Client) :
  reachable env engine_text c ->
  isAnalyzing (app c) = true ->
  displayed_results (app c) = None /\ displayed_error (app c) = None
  /\ reset_rendered (app c) = false /\ analyze_disabled (app c) = true.
Proof.
  intros Hreach Hb. apply reachable_inv in Hreach as [Hbusy _ _ _].
  destruct (Hbusy Hb) as (Hres & Herr & _).
  unfold displayed_results, displayed_error, reset_rendered, analyze_disabled.
  rewrite Hres, Herr, Hb. simpl. by rewrite orb_true_r.
Qed.

Lemma busy_page_shows_nothing_witness :
  displayed_results (app (analyzing_client slow_world)) = None
  /\ displayed_error (app (analyzing_client slow_world)) = None
  /\ reset_rendered (app (analyzing_client slow_world)) = false
  /\ analyze_disabled (app (analyzing_client slow_world)) = true.
Proof.
  apply (busy_page_shows_nothing None [] (analyzing_client slow_world)
           (analyzing_client_reachable _ _) eq_refl).
Defined.

(** X9.  Whenever the page is busy, or holds a report or an error, its
    inputs are complete: a file is selected and the trimmed job description
    has at least 50 code units, so that [handleAnalyze], run again on that
    state, would issue a call. *)
Theorem output_implies_inputs_ready
    (env : option jsstring) (engine_text : jsstring) (c : Client) :
  reachable env engine_text c ->
  isAnalyzing (app c) = true \/ results (app c) <> JNull \/ error (app c) <> None ->
  is_Some (selectedFile (app c))
  /\ (50 <= length (trim (jobDescription (app c))))%nat
  /\ is_Some (snd (handleAnalyze_begin (app c))).
Proof.
  intros Hreach Hout. apply reachable_inv2 in Hreach as [_ Hready].
  pose proof (Hready Hout) as H. apply isReadyToAnalyze_spec in H as [H1 H2].
  split; [done|]. split; [done|]. by apply submits_iff.
Qed.

Lemma output_implies_inputs_ready_witness :
  is_Some (selectedFile (app completed_client))
  /\ (50 <= length (trim (jobDescription (app completed_client))))%nat
  /\ is_Some (snd (handleAnalyze_begin (app completed_client))).
Proof.
  apply (output_implies_inputs_ready None [] completed_client
           completed_client_reachable).
  right. left. discriminate.
Defined.

(** X11.  While an analysis is in flight no event of the page changes the
    job description or unselects the file, and no second call is issued:
    the only way out of the busy state is the settling of the call. *)
Theorem busy_inputs_are_frozen
    (env : option jsstring) (engine_text : jsstring) (c c' : Client) :
  reachable env engine_text c ->
  isAnalyzing (app c) = true ->
  step env engine_text c c' ->
  jobDescription (app c') = jobDescription (app c)
  /\ is_Some (selectedFile (app c'))
  /\ (length (inflight c') <= 1)%nat
  /\ (isAnalyzing (app c') = false ->
      exists t outcome,
        inflight c = [Settles t outcome]
        /\ app c' = handleAnalyze_resume engine_text outcome (app c)).
Proof.
  intros Hreach Hb Hstep.
  pose proof (reachable_inv env engine_text c Hreach) as [Hbusy _ _ _].
  destruct (Hbusy Hb) as (_ & _ & p & Hp).
  pose proof (reachable_inv2 env engine_text c Hreach) as [_ Hready].
  apply isReadyToAnalyze_spec in Hready as [[file Hfile] _]; [|by left].
  destruct Hstep as
    [c files|c files Hidle|c Hsel Hidle|c value Hidle|c world Hen
    |c before t outcome after Hin|c Hshown Hidle]; simpl; try congruence.
  - rewrite Hp. simpl.
    destruct (FileUploader.handleDrop files) as [|msg|g] eqn:He; simpl;
      (split; [done|]); (split; [|split; [lia|congruence]]); try by eexists.
    destruct files as [|f rest]; [discriminate|].
    change (FileUploader.handleDrop (f :: rest))
      with (FileUploader.handleFileSelect (Some f)) in He.
    apply uploader_passes in He as (? & _ & -> & _). by eexists.
  - unfold analyze_disabled in Hen. rewrite Hb, orb_true_r in Hen. discriminate.
  - rewrite Hp in Hin.
    assert (before = [] /\ after = [] /\ p = Settles t outcome) as (-> & -> & ->).
    { destruct before as [|x [|y before]]; simplify_eq/=; [done|..];
        by destruct before. }
    split; [by destruct outcome|]. split; [destruct outcome; by eexists|].
    split; [simpl; lia|]. intros _. by exists t, outcome.
Qed.

Lemma busy_inputs_are_frozen_witness :
  jobDescription
    (apply_effect (FileUploader.handleDrop [docx_file])
       (app (analyzing_client slow_world)))
  = padded_fifty.
Proof.
  apply (busy_inputs_are_frozen None [] (analyzing_client slow_world) _
           (analyzing_client_reachable _ _) eq_refl
           (step_drop None [] (analyzing_client slow_world) [docx_file])).
Defined.

(** ** The service functions *)

Lemma run_fulfilled_iff (rq : axios.Request) (net : axios.Network)
    (t : N) (r : axios.Response) :
  (0 < axios.req_timeout rq)%N ->
  axios.run rq net = Settles t (Fulfilled r)
  <-> net = axios.Answers t r /\ (t < axios.req_timeout rq)%N
      /\ (200 <= axios.status r < 300).
Proof.
  intros Hpos. unfold axios.run, axios.validateStatus.
  assert ((0 <? axios.req_timeout rq)%N = true) as -> by by apply N.ltb_lt.
  split.
  - destruct net as [elapsed r'|elapsed| |]; simpl; try discriminate.
    + destruct (axios.req_timeout rq <=? elapsed)%N eqn:Hexp; [discriminate|].
      apply N.leb_gt in Hexp.
      destruct (_ && _) eqn:Hok; [|discriminate]. intros [= -> ->].
      apply andb_true_iff in Hok as [H1 H2]. split; [done|]. split; lia.
    + by destruct (axios.req_timeout rq <=? elapsed)%N.
  - intros (-> & Ht & H1 & H2). simpl.
    assert ((axios.req_timeout rq <=? t)%N = false) as -> by (apply N.leb_gt; lia).
    assert ((200 <=? axios.status r) && (axios.status r <? 300) = true) as ->
      by (apply andb_true_iff; split; lia).
    reflexivity.
Qed.

(** X12.  [analyzeResume] resolves only on a 2xx answer that arrives
    before the timeout, and then with exactly the body of that answer; in
    every other case it rejects. *)
Theorem analyzeResume_fulfils_iff
    (env : option jsstring) (file : File.t) (text : jsstring)
    (world : axios.Request -> axios.Network) (t : N) (v : jsval) :
  analyzeResume env file text world = Settles t (Fulfilled v)
  <-> exists r,
        world (analyzeResume_request env file text) = axios.Answers t r
        /\ (t < 30000)%N /\ (200 <= axios.status r < 300) /\ v = axios.data r.
Proof.
  unfold analyzeResume, axios.post. fold (analyzeResume_request env file text).
  split.
  - destruct (axios.run _ _) as [t' [r|e]|] eqn:Hrun; try discriminate.
    intros [= -> <-]. apply run_fulfilled_iff in Hrun as (Hw & Ht & Hs); [|simpl; lia].
    by exists r.
  - intros (r & Hw & Ht & Hs & ->).
    assert (axios.run (analyzeResume_request env file text)
              (world (analyzeResume_request env file text)) = Settles t (Fulfilled r))
      as -> by (apply run_fulfilled_iff; [simpl; lia|done]).
    reflexivity.
Qed.

Lemma analyzeResume_fulfils_iff_witness :
  analyzeResume None sample_pdf (repeat 97%N 50) (answering_world 200 ok_body)
  = Settles 120 (Fulfilled ok_body).
Proof.
  apply (analyzeResume_fulfils_iff None sample_pdf (repeat 97%N 50)
           (answering_world 200 ok_body) 120 ok_body).
  exists {| axios.data := ok_body; axios.status := 200 |}.
  split; [reflexivity|]. split; [lia|]. split; [simpl; lia|reflexivity].
Defined.

(** X13.  [healthCheck] always settles, within 30000 ms.  It resolves,
    with the body, exactly on a 2xx answer that arrives before the timeout;
    every failure, whatever its cause, is rejected with the same message
    [Server is not responding]. *)
Theorem healthCheck_outcomes
    (env : option jsstring) (world : axios.Request -> axios.Network) :
  (exists t outcome, healthCheck env world = Settles t outcome /\ (t <= 30000)%N)
  /\ (forall t v,
        healthCheck env world = Settles t (Fulfilled v)
        <-> exists r,
              world (get_request env (js "/api/health")) = axios.Answers t r
              /\ (t < 30000)%N /\ (200 <= axios.status r < 300) /\ v = axios.data r)
  /\ (forall t e,
        healthCheck env world = Settles t (Rejected e) ->
        e = ErrorObj (js "Server is not responding")).
Proof.
  unfold healthCheck, axios.get. fold (get_request env (js "/api/health")).
  split; [|split].
  - destruct (run_settles (get_request env (js "/api/health"))
                (world (get_request env (js "/api/health"))))
      as (t & s & -> & Ht); [simpl; lia|].
    destruct s; eexists _, _; (split; [reflexivity|exact Ht]).
  - intros t v. split.
    + destruct (axios.run _ _) as [t' [r|e]|] eqn:Hrun; try discriminate.
      intros [= -> <-].
      apply run_fulfilled_iff in Hrun as (Hw & Ht & Hs); [|simpl; lia]. by exists r.
    + intros (r & Hw & Ht & Hs & ->).
      assert (axios.run (get_request env (js "/api/health"))
                (world (get_request env (js "/api/health"))) = Settles t (Fulfilled r))
        as -> by (apply run_fulfilled_iff; [simpl; lia|done]).
      reflexivity.
  - intros t e. destruct (axios.run _ _) as [t' [r|e']|]; try discriminate.
    by intros [= _ <-].
Qed.

Lemma healthCheck_outcomes_witness :
  healthCheck None (answering_world 500 (JObj ∅))
  = Settles 120 (Rejected (ErrorObj (js "Server is not responding"))).
Proof.
  destruct (proj1 (healthCheck_outcomes None (answering_world 500 (JObj ∅))))
    as (t & outcome & Hcall & _).
  pose proof (proj2 (proj2 (healthCheck_outcomes None (answering_world 500 (JObj ∅)))))
    as Hrej.
  rewrite Hcall. destruct outcome as [v|e].
  - exfalso. vm_compute in Hcall. discriminate Hcall.
  - rewrite (Hrej t e Hcall). vm_compute in Hcall. by injection Hcall as <- _.
Defined.

(** X14.  When the body of an error response is [null] (or missing), the
    [catch] block of [analyzeResume] fails on reading its [error] field:
    the call rejects with the engine's [TypeError] instead of one of its
    own messages, and [App] displays the engine's text (its own fallback
    when that text is empty). *)
Theorem null_error_body_throws_TypeError
    (engine_text : jsstring) (status : Z) (body : jsval) (st : AppState) :
  body = JNull \/ body = JUndefined ->
  analyzeResume_catch (error_response status body) = TypeErrorObj
  /\ error (handleAnalyze_resume engine_text
              (Rejected (analyzeResume_catch (error_response status body))) st)
     = Some (match engine_text with
             | [] => js "Analysis failed. Please try again."
             | _ => engine_text
             end).
Proof.
  intros [-> | ->]; (split; [reflexivity|]); simpl; by destruct engine_text.
Qed.

Lemma null_error_body_throws_TypeError_witness :
  analyzeResume None sample_pdf (repeat 97%N 50) (answering_world 500 JNull)
  = Settles 120 (Rejected TypeErrorObj).
Proof.
  pose proof (proj1 (null_error_body_throws_TypeError [] 500 JNull initialState
                       (or_introl eq_refl))) as H.
  change (analyzeResume None sample_pdf (repeat 97%N 50) (answering_world 500 JNull))
    with (Settles 120%N (Rejected (E := thrown) (A := jsval)
            (analyzeResume_catch (error_response 500 JNull)))).
  by rewrite H.
Defined.

(** ** Rendering a well-formed report *)

Lemma join_with_strings (sep : jsstring) (l : list jsstring) :
  join_with sep (map JStr l) = Return (separated sep l).
Proof.
  induction l as [|x [|y l] IH]; [done|done|].
  change (join_with sep (map JStr (x :: y :: l)))
    with (srest ← join_with sep (map JStr (y :: l)); Return (x ++ sep ++ srest)).
  by rewrite IH.
Qed.

Lemma body_of_lookups (r : Report) :
  prop (body_of r) (js "analysis") = Return (JObj (analysis_of r))
  /\ prop (body_of r) (js "metadata") = Return (JObj (metadata_of r)).
Proof. split; reflexivity. Qed.

Arguments js : simpl never.

(** What [ResultsDisplay] itself needs of a body to return an element: an
    object [analysis] with an object [structure] whose [sections_found] is
    an array of strings, an array of strings as [recommendations], and an
    object [metadata] with numeric lengths.  Every other field may be
    missing and is then passed on as [undefined]. *)
Lemma ResultsDisplay_returns (string_gt_zero : jsstring -> bool)
    (fields a m s : gmap jsstring jsval) (sec recs : list jsstring) (rl jl : Z) :
  fields !! js "analysis" = Some (JObj a) ->
  fields !! js "metadata" = Some (JObj m) ->
  a !! js "structure" = Some (JObj s) ->
  s !! js "sections_found" = Some (strings sec) ->
  a !! js "recommendations" = Some (strings recs) ->
  m !! js "resume_length" = Some (JNum rl) ->
  m !! js "job_description_length" = Some (JNum jl) ->
  let field (o : gmap jsstring jsval) k := default JUndefined (o !! k) in
  ResultsDisplay.ResultsDisplay string_gt_zero (JObj fields)
  = Return (Some
      {| ResultsDisplay.filename := field m (js "filename");
         ResultsDisplay.main_score :=
           {| ResultsDisplay.score := field a (js "overall_score");
              ResultsDisplay.label := js "Overall Match" |};
         ResultsDisplay.sub_scores :=
           [ {| ResultsDisplay.score := field a (js "keyword_score");
                ResultsDisplay.label := js "Keywords" |};
             {| ResultsDisplay.score := field a (js "tech_skill_score");
                ResultsDisplay.label := js "Tech Skills" |} ];
         ResultsDisplay.keyword_grid :=
           [ {| ResultsDisplay.keywords := field a (js "keyword_matches");
                ResultsDisplay.type := js "found" |};
             {| ResultsDisplay.keywords := field a (js "keyword_misses");
                ResultsDisplay.type := js "missing" |} ];
         ResultsDisplay.skill_grid :=
           [ {| ResultsDisplay.keywords := field a (js "tech_skill_matches");
                ResultsDisplay.type := js "found" |};
             {| ResultsDisplay.keywords := field a (js "tech_skill_misses");
                ResultsDisplay.type := js "missing" |} ];
         ResultsDisplay.sections_found :=
           match sec with
           | [] => js "None detected"
           | _ => separated (js ", ") sec
           end;
         ResultsDisplay.strong_verbs_count := field s (js "strong_verbs_count");
         ResultsDisplay.recommendations :=
           imap (fun index x => (Z.of_nat index + 1, JStr x)) recs;
         ResultsDisplay.resume_length := JNum rl;
         ResultsDisplay.job_description_length := JNum jl;
         ResultsDisplay.total_job_keywords := field m (js "total_job_keywords");
         ResultsDisplay.total_job_tech_skills := field m (js "total_job_tech_skills") |}).
Proof.
  intros Ha Hm Hs Hsec Hrecs Hrl Hjl field.
  unfold ResultsDisplay.ResultsDisplay. simpl.
  rewrite Ha, Hm. simpl. rewrite Hs, Hrecs, Hrl, Hjl. simpl. rewrite Hsec. simpl.
  rewrite (imap_fmap _ JStr). destruct sec as [|x sec]; [reflexivity|].
  change (0 <? Z.of_nat (length (map JStr (x :: sec)))) with true.
  cbv iota. by rewrite join_with_strings.
Qed.

(** X15.  A report of the typed wire format, sent nested under [analysis]
    and [metadata], is rendered without a throw and shows its own data: the
    scores, the four term lists, the sections joined by a comma and a blank
    ([None detected] when there is none), the verb count, the
    recommendations numbered from 1 in their order, and the metadata. *)
Theorem report_is_rendered (string_gt_zero : jsstring -> bool) (r : Report) :
  ResultsDisplay.ResultsDisplay string_gt_zero (body_of r) = Return (Some (view_of r)).
Proof.
  unfold body_of.
  rewrite (ResultsDisplay_returns string_gt_zero _ (analysis_of r) (metadata_of r)
             {[ js "sections_found" := strings (r_sections_found r);
                js "strong_verbs_count" := JNum (r_strong_verbs_count r) ]}
             (r_sections_found r) (r_recommendations r)
             (r_resume_length r) (r_job_description_length r));
    reflexivity.
Qed.

(** ** What the rendering throws *)

Lemma only_Return {A} (a : A) : only_TypeError (Return a).
Proof. by intros e. Qed.

Lemma only_Throw {A} : only_TypeError (Throw (A := A) TypeErrorObj).
Proof. by intros e [= <-]. Qed.

Lemma only_bind {A B} (c : completion A) (k : A -> completion B) :
  only_TypeError c -> (forall a, only_TypeError (k a)) -> only_TypeError (c ≫= k).
Proof.
  intros Hc Hk e. destruct c as [a|e']; simpl; [apply Hk|].
  intros [= <-]. by apply Hc.
Qed.

Lemma must_throw {A B} (c : completion A) (k : A -> completion B) :
  only_TypeError c ->
  (forall a, c = Return a -> k a = Throw TypeErrorObj) ->
  c ≫= k = Throw TypeErrorObj.
Proof.
  intros Hc Hk. destruct c as [a|e]; simpl; [by apply Hk|]. by rewrite (Hc e).
Qed.

Lemma only_prop (v : jsval) (k : jsstring) : only_TypeError (prop v k).
Proof. destruct v; simpl; (apply only_Return || apply only_Throw). Qed.

Lemma only_join_with (sep : jsstring) (l : list jsval) :
  Forall (fun x => only_TypeError (ToString x)) l -> only_TypeError (join_with sep l).
Proof.
  induction 1 as [|x l Hx Hl IH]; [apply only_Return|].
  simpl. apply only_bind.
  - destruct x; try done; apply only_Return.
  - intros sx. destruct l; [apply only_Return|].
    apply only_bind; [done|]. intros srest. apply only_Return.
Qed.

Lemma ToString_array (l : list jsval) : ToString (JArr l) = join_with (js ",") l.
Proof.
  induction l as [|x l IH]; [done|].
  simpl in *. destruct l as [|y l]; [done|]. by rewrite <- IH.
Qed.

Lemma only_ToString (v : jsval) : only_TypeError (ToString v).
Proof.
  revert v. fix IH 1. intros [| |[|]|n|s|l|m]; try apply only_Return.
  - rewrite ToString_array. apply only_join_with.
    induction l as [|x l IHl]; constructor; [apply IH|apply IHl].
  - simpl. destruct (m !! js "toString"); [apply only_Throw|apply only_Return].
Qed.

Lemma only_gt_zero (g : jsstring -> bool) (v : jsval) :
  only_TypeError (ResultsDisplay.gt_zero g v).
Proof.
  destruct v; try apply only_Return;
    (apply only_bind; [apply only_ToString|intros ?; apply only_Return]).
Qed.

Lemma only_call_join (v : jsval) (sep : jsstring) :
  only_TypeError (ResultsDisplay.call_join v sep).
Proof.
  destruct v; try apply only_Throw. apply only_join_with.
  apply Forall_forall. intros x _. apply only_ToString.
Qed.

Lemma only_call_map (v : jsval) : only_TypeError (ResultsDisplay.call_map v).
Proof. destruct v; (apply only_Return || apply only_Throw). Qed.

Lemma only_call_toLocaleString (v : jsval) :
  only_TypeError (ResultsDisplay.call_toLocaleString v).
Proof.
  unfold ResultsDisplay.call_toLocaleString.
  destruct (ResultsDisplay.toLocaleString_throws v); [apply only_Throw|apply only_Return].
Qed.

Create HintDb only.

#[local] Hint Resolve only_prop only_gt_zero only_call_join only_call_map
  only_call_toLocaleString only_Return only_Throw only_ToString : only.

Ltac only_step :=
  first [ apply only_bind; [auto with only|intros ?]
        | match goal with |- only_TypeError (if ?b then _ else _) => destruct b end
        | auto with only ].

Lemma only_ResultsDisplay (g : jsstring -> bool) (results : jsval) :
  only_TypeError (ResultsDisplay.ResultsDisplay g results).
Proof.
  unfold ResultsDisplay.ResultsDisplay. repeat only_step.
Qed.

Lemma guard_open (g : jsstring -> bool) (fields : gmap jsstring jsval)
    (analysis : jsval) :
  fields !! js "analysis" = Some analysis -> truthy analysis = true ->
  ResultsDisplay.ResultsDisplay g (JObj fields) <> Return None.
Proof.
  intros Ha Ht. unfold ResultsDisplay.ResultsDisplay. simpl. rewrite Ha. simpl.
  rewrite Ht. simpl. intros H. repeat bound_value H.
  discriminate H.
Qed.

(** X16.  On a body whose [analysis] is truthy, [ResultsDisplay] throws a
    [TypeError] when [metadata] is missing or [null], when
    [analysis.structure] or its [sections_found] is missing or [null], when
    [analysis.recommendations] is not an array, and when one of the two
    lengths of [metadata] is missing or [null]. *)
Theorem incomplete_body_throws (g : jsstring -> bool)
    (fields : gmap jsstring jsval) (analysis : jsval) :
  fields !! js "analysis" = Some analysis -> truthy analysis = true ->
  let read (v : jsval) (k : jsstring) : jsval :=
    match prop v k with Return x => x | Throw _ => JUndefined end in
  let metadata := default JUndefined (fields !! js "metadata") in
  let structure := read analysis (js "structure") in
  nullish metadata \/ nullish structure
  \/ nullish (read structure (js "sections_found"))
  \/ (forall l, read analysis (js "recommendations") <> JArr l)
  \/ nullish (read metadata (js "resume_length"))
  \/ nullish (read metadata (js "job_description_length")) ->
  ResultsDisplay.ResultsDisplay g (JObj fields) = Throw TypeErrorObj.
Proof.
  intros Ha Ht read metadata structure Hbad.
  pose proof (guard_open g fields analysis Ha Ht) as Hopen.
  pose proof (only_ResultsDisplay g (JObj fields)) as Honly.
  destruct (ResultsDisplay.ResultsDisplay g (JObj fields)) as [[v|]|e] eqn:Hv;
    [|done|by rewrite (Honly e)].
  exfalso. unfold ResultsDisplay.ResultsDisplay in Hv. simpl in Hv.
  rewrite Ha in Hv. simpl in Hv. rewrite Ht in Hv. simpl in Hv.
  fold metadata in Hv. repeat bound_value Hv.
  unfold nullish, structure, read in Hbad.
  destruct Hbad as [[H|H]|[[H|H]|[[H|H]|[H|[[H|H]|[H|H]]]]]].
  - by rewrite H in E.
  - by rewrite H in E.
  - rewrite E7 in H. by rewrite H in E8.
  - rewrite E7 in H. by rewrite H in E8.
  - rewrite E7, E8 in H. by rewrite H in E9.
  - rewrite E7, E8 in H. by rewrite H in E9.
  - rewrite E13 in H. apply call_map_returns in E14 as (l & -> & _). by apply (H l).
  - rewrite E15 in H. by rewrite H in E16.
  - rewrite E15 in H. by rewrite H in E16.
  - rewrite E17 in H. by rewrite H in E18.
  - rewrite E17 in H. by rewrite H in E18.
Qed.

Lemma incomplete_body_throws_witness :
  ResultsDisplay.ResultsDisplay never_positive
    (JObj (delete (js "metadata") nested_response))
  = Throw TypeErrorObj.
Proof.
  assert (delete (js "metadata") nested_response !! js "analysis"
          = Some (JObj sample_analysis_fields)) as Ha by reflexivity.
  apply (incomplete_body_throws never_positive
           (delete (js "metadata") nested_response) (JObj sample_analysis_fields)
           Ha eq_refl).
  left. left. reflexivity.
Defined.

(** ** The inner components *)

(** X17.  On integer scores [getScoreColor] never throws and is monotone:
    a higher score never gets a worse class.  The class is [excellent]
    exactly from 80 up and [poor] exactly below 40; a missing or [null]
    score is classed [poor]. *)
Theorem score_color_monotone (string_ge : jsstring -> Z -> bool) (n m : Z) :
  n <= m ->
  exists cn cm,
    Render.getScoreColor string_ge (JNum n) = Return cn
    /\ Render.getScoreColor string_ge (JNum m) = Return cm
    /\ (color_rank cn <= color_rank cm)%nat
    /\ (cn = js "excellent" <-> 80 <= n)
    /\ (cn = js "poor" <-> n < 40)
    /\ Render.getScoreColor string_ge JUndefined = Return (js "poor")
    /\ Render.getScoreColor string_ge JNull = Return (js "poor").
Proof.
  intros Hle. unfold Render.getScoreColor. simpl.
  destruct (80 <=? n) eqn:H80n, (60 <=? n) eqn:H60n, (40 <=? n) eqn:H40n;
    destruct (80 <=? m) eqn:H80m, (60 <=? m) eqn:H60m, (40 <=? m) eqn:H40m;
    try lia; eexists _, _;
    (split; [reflexivity|]); (split; [reflexivity|]);
    (split; [vm_compute; lia|]);
    (split; [split; [try discriminate; lia|try lia; done]|]);
    (split; [split; [try discriminate; lia|try lia; done]|]); done.
Qed.

Lemma score_color_monotone_witness :
  exists cn cm,
    Render.getScoreColor (fun _ _ => false) (JNum 55) = Return cn
    /\ Render.getScoreColor (fun _ _ => false) (JNum 82) = Return cm
    /\ (color_rank cn <= color_rank cm)%nat.
Proof.
  destruct (score_color_monotone (fun _ _ => false) 55 82 ltac:(lia))
    as (cn & cm & Hn & Hm & Hrank & _).
  by exists cn, cm.
Defined.

Lemma fst_imap_index {A} (l : list A) (k : nat) :
  map fst (imap (fun index x => (k + index, x)%nat) l) = seq k (length l).
Proof.
  revert k. induction l as [|x l IH]; intros k; [done|].
  simpl. rewrite Nat.add_0_r. f_equal.
  rewrite <- (IH (S k)). f_equal. apply imap_ext. intros i y _. simpl. f_equal. lia.
Qed.

Lemma snd_imap_index {A} (l : list A) :
  map snd (imap (fun index x => (index, x)) l) = l.
Proof. apply (map_snd_imap (fun i => i)). Qed.

Lemma KeywordList_strings (g : jsstring -> bool) (l : list jsstring) (type : jsstring) :
  Render.KeywordList g
    {| ResultsDisplay.keywords := strings l; ResultsDisplay.type := type |}
  = Return {| Render.section_class := type; Render.content := list_body l |}.
Proof.
  destruct l as [|x l]; [reflexivity|].
  unfold Render.KeywordList, strings, list_body. simpl.
  by rewrite (imap_fmap _ JStr).
Qed.

Lemma getScoreColor_number (string_ge : jsstring -> Z -> bool) (n : Z) :
  exists color, Render.getScoreColor string_ge (JNum n) = Return color.
Proof.
  unfold Render.getScoreColor. simpl.
  destruct (80 <=? n); [by eexists|]. destruct (60 <=? n); [by eexists|].
  destruct (40 <=? n); by eexists.
Qed.

Arguments Render.getScoreColor : simpl never.

(** X19.  The whole page of a typed report renders without a throw: the
    element of [ResultsDisplay] shows the report, each of the three score
    circles carries the class of its score, and each of the four term lists
    shows its terms as tags, or [None found] when it is empty. *)
Theorem report_page_renders
    (string_ge : jsstring -> Z -> bool) (string_gt_zero : jsstring -> bool)
    (r : Report) :
  exists page,
    Render.render string_ge string_gt_zero (body_of r) = Return (Some page)
    /\ Render.report page = view_of r
    /\ Render.getScoreColor string_ge (JNum (r_overall_score r))
       = Return (Render.circle (Render.main_circle page))
    /\ [Render.getScoreColor string_ge (JNum (r_keyword_score r));
        Render.getScoreColor string_ge (JNum (r_tech_skill_score r))]
       = map (fun c => Return (Render.circle c)) (Render.sub_circles page)
    /\ map Render.content (Render.keyword_lists page)
       = [list_body (r_keyword_matches r); list_body (r_keyword_misses r)]
    /\ map Render.content (Render.skill_lists page)
       = [list_body (r_tech_skill_matches r); list_body (r_tech_skill_misses r)].
Proof.
  destruct (getScoreColor_number string_ge (r_overall_score r)) as [c1 H1].
  destruct (getScoreColor_number string_ge (r_keyword_score r)) as [c2 H2].
  destruct (getScoreColor_number string_ge (r_tech_skill_score r)) as [c3 H3].
  unfold Render.render, body_of.
  rewrite (ResultsDisplay_returns string_gt_zero _ (analysis_of r) (metadata_of r)
             {[ js "sections_found" := strings (r_sections_found r);
                js "strong_verbs_count" := JNum (r_strong_verbs_count r) ]}
             (r_sections_found r) (r_recommendations r)
             (r_resume_length r) (r_job_description_length r)) by reflexivity.
  unfold Render.ScoreCircle.
  change (default JUndefined (analysis_of r !! js "overall_score"))
    with (JNum (r_overall_score r)).
  change (default JUndefined (analysis_of r !! js "keyword_score"))
    with (JNum (r_keyword_score r)).
  change (default JUndefined (analysis_of r !! js "tech_skill_score"))
    with (JNum (r_tech_skill_score r)).
  change (default JUndefined (analysis_of r !! js "keyword_matches"))
    with (strings (r_keyword_matches r)).
  change (default JUndefined (analysis_of r !! js "keyword_misses"))
    with (strings (r_keyword_misses r)).
  change (default JUndefined (analysis_of r !! js "tech_skill_matches"))
    with (strings (r_tech_skill_matches r)).
  change (default JUndefined (analysis_of r !! js "tech_skill_misses"))
    with (strings (r_tech_skill_misses r)).
  simpl. rewrite H1. simpl. rewrite H2. simpl. rewrite H3. simpl.
  rewrite !KeywordList_strings. simpl.
  eexists. split; [reflexivity|]. done.
Qed.

Lemma only_mapM {A B} (f : A -> completion B) (l : list A) :
  (forall x, only_TypeError (f x)) -> only_TypeError (mapM f l).
Proof.
  intros Hf. induction l as [|x l IH]; [apply only_Return|].
  simpl. apply only_bind; [apply Hf|]. intros y.
  apply only_bind; [apply IH|]. intros k. apply only_Return.
Qed.

Lemma mapM_throws {A B} (f : A -> completion B) (l : list A) :
  (forall x, only_TypeError (f x)) ->
  Exists (fun x => f x = Throw TypeErrorObj) l ->
  mapM f l = Throw TypeErrorObj.
Proof.
  intros Hf. induction 1 as [x l Hx|x l Hl IH]; simpl.
  - by rewrite Hx.
  - apply must_throw; [apply Hf|]. intros y _. by rewrite IH.
Qed.

Lemma only_getScoreColor (string_ge : jsstring -> Z -> bool) (score : jsval) :
  only_TypeError (Render.getScoreColor string_ge score).
Proof.
  assert (forall k, only_TypeError (Render.ge string_ge score k)) as Hge.
  { intros k. destruct score; try apply only_Return;
      (apply only_bind; [apply only_ToString|intros ?; apply only_Return]). }
  unfold Render.getScoreColor.
  apply only_bind; [apply Hge|]. intros [|]; [apply only_Return|].
  apply only_bind; [apply Hge|]. intros [|]; [apply only_Return|].
  apply only_bind; [apply Hge|]. intros [|]; apply only_Return.
Qed.

Lemma only_ScoreCircle (string_ge : jsstring -> Z -> bool) props :
  only_TypeError (Render.ScoreCircle string_ge props).
Proof.
  apply only_bind; [apply only_getScoreColor|]. intros c. apply only_Return.
Qed.

Lemma only_KeywordList (g : jsstring -> bool) props :
  only_TypeError (Render.KeywordList g props).
Proof.
  unfold Render.KeywordList.
  apply only_bind; [apply only_prop|]. intros len.
  apply only_bind; [apply only_gt_zero|]. intros some.
  apply only_bind; [|intros c; apply only_Return].
  destruct some; [|apply only_Return].
  apply only_bind; [|intros items; apply only_Return].
  destruct (ResultsDisplay.keywords props); (apply only_Return || apply only_Throw).
Qed.

Lemma KeywordList_nullish (g : jsstring -> bool) props :
  nullish (ResultsDisplay.keywords props) ->
  Render.KeywordList g props = Throw TypeErrorObj.
Proof.
  destruct props as [keywords type]. simpl. by intros [-> | ->].
Qed.



(** ** A response without a report *)

(** X21.  When the server answers an analysis with a record that has no
    truthy [analysis] field (for instance the flat record of the ten wire
    names), the run ends without an error and the record is stored, yet
    nothing is shown: the results section renders to nothing and no error
    message appears; only the reset button tells that the run is over. *)
Theorem body_without_analysis_shows_nothing
    (string_gt_zero : jsstring -> bool) (engine_text : jsstring)
    (fields : gmap jsstring jsval) (st : AppState) :
  truthy (default JUndefined (fields !! js "analysis")) = false \/ flat_shape fields ->
  results st = JNull -> error st = None ->
  let st' := handleAnalyze_resume engine_text (Fulfilled (JObj fields)) st in
  results st' = JObj fields
  /\ isAnalyzing st' = false
  /\ displayed_error st' = None
  /\ results_section string_gt_zero st' = Return None
  /\ reset_rendered st' = true.
Proof.
  intros Hfields Hres Herr st'.
  assert (truthy (default JUndefined (fields !! js "analysis")) = false) as Hfalsy.
  { destruct Hfields as [H|H]; [done|].
    assert (fields !! js "analysis" = None) as ->; [|done].
    apply not_elem_of_dom. unfold flat_shape in H.
    rewrite H, elem_of_list_to_set. apply analysis_not_a_wire_name. }
  unfold st', results_section, displayed_error, displayed_results, reset_rendered.
  simpl. rewrite Herr. repeat split.
  unfold ResultsDisplay.ResultsDisplay. simpl. by rewrite Hfalsy.
Qed.

Lemma body_without_analysis_shows_nothing_witness :
  results_section never_positive
    (handleAnalyze_resume [] (Fulfilled (JObj flat_response))
       (app (analyzing_client (answering_world 200 (JObj flat_response)))))
  = Return None.
Proof.
  apply (body_without_analysis_shows_nothing never_positive [] flat_response
           (app (analyzing_client (answering_world 200 (JObj flat_response))))).
  - right. apply (bool_decide_eq_true_1 (flat_shape flat_response)). reflexivity.
  - reflexivity.
  - reflexivity.
Defined.

(** ** The size shown for the selected file *)

(** X22.  The size printed beside the selected file is within half a
    hundredth of a MiB of the true size and grows with it; for a file that
    the uploader lets through it is at most 16.00, which is what a file of
    exactly the limit shows. *)
Theorem size_display_is_accurate (size size' : N) :
  (Z.abs (1048576 * Z.of_N (size_hundredths size) - 100 * Z.of_N size) * 2 <= 1048576)
  /\ ((size <= size')%N -> (size_hundredths size <= size_hundredths size')%N)
  /\ ((size <= FileUploader.maxSize)%N -> (size_hundredths size <= 1600)%N)
  /\ size_text FileUploader.maxSize = js "16.00".
Proof.
  unfold size_hundredths, FileUploader.maxSize.
  split; [|split; [|split]].
  - pose proof (N.div_mod (200 * size + 1048576) 2097152 ltac:(lia)) as Hdiv.
    pose proof (N.mod_lt (200 * size + 1048576) 2097152 ltac:(lia)) as Hmod.
    revert Hdiv Hmod.
    generalize ((200 * size + 1048576) / 2097152)%N
               ((200 * size + 1048576) mod 2097152)%N.
    intros q r Hdiv Hmod. lia.
  - intros Hle. apply N.Div0.div_le_mono. lia.
  - intros Hle.
    transitivity ((200 * (16 * 1024 * 1024) + 1048576) / 2097152)%N;
      [apply N.Div0.div_le_mono; lia|by vm_compute].
  - reflexivity.
Qed.

Lemma size_display_is_accurate_witness :
  (size_hundredths 120000 <= size_hundredths 16777216)%N
  /\ (size_hundredths 120000 <= 1600)%N.
Proof.
  split.
  - apply (proj1 (proj2 (size_display_is_accurate 120000 16777216))). lia.
  - apply (proj1 (proj2 (proj2 (size_display_is_accurate 120000 0)))).
    unfold FileUploader.maxSize. lia.
Defined.

(** ** A drop while the analysis is in flight *)

Lemma acceptable_passes (file : File.t) :
  acceptable file ->
  FileUploader.handleDrop [file] = FileUploader.OnFileSelect (Some file).
Proof.
  intros [Hty Hsz].
  change (FileUploader.handleDrop [file])
    with (FileUploader.handleFileSelect (Some file)).
  rewrite handleFileSelect_allowed_size by done.
  by assert ((FileUploader.maxSize <? File.size file)%N = false) as ->
    by (apply N.ltb_ge; lia).
Qed.


(** ** The page: mounting, the file input, and what stays on screen *)

Section PageFacts.

Variable env : option jsstring.
Variable engine_text : jsstring.
Variable string_ge : jsstring -> Z -> bool.
Variable string_gt_zero : jsstring -> bool.

Lemma page_step_client (p p' : Page) :
  page_step env engine_text string_ge string_gt_zero p p' ->
  step env engine_text (client p) (client p').
Proof.
  destruct 1; simpl; try (by constructor).
  by apply (step_settle env engine_text (client p) before t outcome after).
Qed.

Lemma reachable_page_client (p : Page) :
  reachable_page env engine_text string_ge string_gt_zero p ->
  reachable env engine_text (client p).
Proof.
  induction 1 as [|p p' _ IH Hstep]; [apply reachable_initial|].
  apply (reachable_step env engine_text (client p)); [done|].
  by apply page_step_client.
Qed.

Lemma renders_without_results (st : AppState) :
  results st = JNull -> React.renders string_ge string_gt_zero st = true.
Proof.
  intros Hres. unfold React.renders, React.results_block, displayed_results.
  by rewrite Hres.
Qed.

End PageFacts.

Lemma mounted_is_truthy (string_ge : jsstring -> Z -> bool)
    (string_gt_zero : jsstring -> bool) (data : jsval) (page : Render.tree) :
  React.mount string_ge string_gt_zero data = React.Mounted (Some page) ->
  truthy data = true.
Proof.
  unfold React.mount, ResultsDisplay.ResultsDisplay.
  destruct (truthy data); [done|]. discriminate.
Qed.




Lemma picked_and_analyzed_reachable :
  reachable_page None [] (fun _ _ => false) never_positive picked_and_analyzed.
Proof.
  set (after := page_after (fun _ _ => false) never_positive).
  pose (c1 := {| app := handleFileSelect (Some sample_pdf) initialState;
                 inflight := [] |}).
  pose (c2 := {| app := with_inputs (Some sample_pdf) padded_fifty; inflight := [] |}).
  pose (c3 := analyzing_client (answering_world 200 ok_body)).
  assert (reachable_page None [] (fun _ _ => false) never_positive
            (after c1 [sample_pdf])) as H1.
  { apply (reachable_page_step _ _ _ _ initialPage); [apply reachable_page_initial|].
    apply (page_input_change None [] _ _ initialPage [sample_pdf]); reflexivity. }
  assert (reachable_page None [] (fun _ _ => false) never_positive
            (after c2 [sample_pdf])) as H2.
  { apply (reachable_page_step _ _ _ _ (after c1 [sample_pdf])); [exact H1|].
    apply (page_job_change None [] _ _ (after c1 [sample_pdf]) padded_fifty);
      reflexivity. }
  assert (reachable_page None [] (fun _ _ => false) never_positive
            (after c3 [sample_pdf])) as H3.
  { apply (reachable_page_step _ _ _ _ (after c2 [sample_pdf])); [exact H2|].
    apply (page_analyze None [] _ _ (after c2 [sample_pdf])
             (answering_world 200 ok_body)); reflexivity. }
  apply (reachable_page_step _ _ _ _ (after c3 [sample_pdf])); [exact H3|].
  apply (page_settle None [] _ _ (after c3 [sample_pdf]) [] 120%N (Fulfilled ok_body) []);
    reflexivity.
Qed.

(** X10.  Pressing the reset button, which is rendered only beside an
    output and enabled only when nothing is in flight, brings the state of
    [App] back to its initial values with nothing in flight, and the page
    stays mounted.  [handleReset] does not touch the file input of the
    uploader, which keeps the files it held, so the page is the initial
    page only if the input was empty; removing the file through the
    uploader's own button, by contrast, empties the input. *)
Theorem reset_restores_app_state
    (env : option jsstring) (engine_text : jsstring)
    (string_ge : jsstring -> Z -> bool) (string_gt_zero : jsstring -> bool)
    (p : Page) :
  reachable_page env engine_text string_ge string_gt_zero p ->
  mounted p = true ->
  reset_rendered (app (client p)) = true ->
  isAnalyzing (app (client p)) = false ->
  (exists p',
     page_step env engine_text string_ge string_gt_zero p p'
     /\ client p' = initialClient
     /\ mounted p' = true
     /\ input_files p' = input_files p
     /\ (p' = initialPage <-> input_files p = []))
  /\ (is_Some (selectedFile (app (client p))) ->
      exists q,
        page_step env engine_text string_ge string_gt_zero p q
        /\ selectedFile (app (client q)) = None
        /\ input_files q = []).
Proof.
  intros Hreach Hup Hshown Hidle.
  pose proof (reachable_page_client _ _ _ _ _ Hreach) as Hclient.
  pose proof (reachable_inv env engine_text (client p) Hclient) as [_ Hquiet _ _].
  assert ({| app := handleReset (app (client p)); inflight := inflight (client p) |}
          = initialClient) as Heq.
  { rewrite (Hquiet Hidle). destruct (client p) as [[file text busy res err] calls].
    simpl in Hidle. by subst busy. }
  split.
  - exists (page_after string_ge string_gt_zero
              {| app := handleReset (app (client p)); inflight := inflight (client p) |}
              (input_files p)).
    split; [by apply page_reset|]. rewrite Heq.
    split; [done|]. split; [done|]. split; [done|].
    unfold page_after, initialPage. simpl. split; [by intros [= ->]|by intros ->].
  - intros Hsel. eexists. split; [by apply page_remove_file|]. done.
Qed.

Lemma reset_restores_app_state_witness :
  exists p',
    page_step None [] (fun _ _ => false) never_positive picked_and_analyzed p'
    /\ client p' = initialClient
    /\ input_files p' = [sample_pdf]
    /\ p' <> initialPage.
Proof.
  destruct (proj1 (reset_restores_app_state None [] (fun _ _ => false) never_positive
                     picked_and_analyzed picked_and_analyzed_reachable
                     eq_refl eq_refl eq_refl))
    as (p' & Hstep & Hclient & _ & Hfiles & Hiff).
  exists p'. split; [exact Hstep|]. split; [exact Hclient|]. split; [exact Hfiles|].
  intros Hinit. apply Hiff in Hinit. discriminate Hinit.
Defined.

(** ** [KeywordList] on the page *)

Lemma child_of_valid (v : jsval) :
  React.valid_child v = true -> React.child v = React.Mounted tt.
Proof. intros H. unfold React.child. by rewrite H. Qed.

Lemma child_of_invalid (v : jsval) :
  React.valid_child v = false ->
  React.child v = React.Crashed (React.InvalidChild v).
Proof. intros H. unfold React.child. by rewrite H. Qed.

Lemma children_valid {A} (items : list (A * jsval)) :
  Forall (fun item => React.valid_child (snd item) = true) items ->
  exists units, mapM (fun item => React.child (snd item)) items = React.Mounted units.
Proof.
  induction 1 as [|item items Hitem _ [units IH]]; [by exists []|].
  cbn [mapM]. rewrite (child_of_valid _ Hitem).
  cbn [mbind React.mounted_bind]. rewrite IH. by eexists.
Qed.

Lemma children_invalid {A} (before after : list (A * jsval)) (item : A * jsval) :
  Forall (fun item => React.valid_child (snd item) = true) before ->
  React.valid_child (snd item) = false ->
  mapM (fun item => React.child (snd item)) (before ++ item :: after)
  = React.Crashed (React.InvalidChild (snd item)).
Proof.
  intros Hbefore Hitem.
  induction Hbefore as [|x before Hx _ IH];
    [change ([] ++ item :: after) with (item :: after)
    |change ((x :: before) ++ item :: after) with (x :: (before ++ item :: after))];
    cbn [mapM].
  - by rewrite (child_of_invalid _ Hitem).
  - rewrite (child_of_valid _ Hx). cbn [mbind React.mounted_bind].
    by rewrite IH.
Qed.

Lemma indexed_valid (l : list jsval) (k : nat) :
  Forall (fun v => React.valid_child v = true) l ->
  Forall (fun item : nat * jsval => React.valid_child (snd item) = true)
    (imap (fun index keyword => (k + index, keyword)%nat) l).
Proof.
  intros Hl. revert k. induction Hl as [|v l Hv _ IH]; intros k; [constructor|].
  simpl. constructor; [done|].
  specialize (IH (S k)). erewrite imap_ext; [exact IH|].
  intros i x _. simpl. f_equal. lia.
Qed.

(** X18.  On the page, [KeywordList] shows [None found] for an empty array
    and, for a non-empty array whose elements are valid children (strings,
    numbers and the like), one tag per element, in the order of the array,
    keyed by the positions 0, 1, ... (so no two tags share a key).  The
    first element that is a plain object makes React throw on it; a list
    that is missing or [null], or a non-empty string (which has a length
    but no [map]), makes the component throw a [TypeError]. *)
Theorem KeywordList_on_page (string_gt_zero : jsstring -> bool)
    (keywords : jsval) (type : jsstring) :
  let props := {| ResultsDisplay.keywords := keywords; ResultsDisplay.type := type |} in
  (keywords = JArr [] ->
     React.keyword_list string_gt_zero props
     = React.Mounted
         {| Render.section_class := type; Render.content := Render.NoneFound |})
  /\ (forall x l, keywords = JArr (x :: l) ->
        Forall (fun v => React.valid_child v = true) (x :: l) ->
        exists items,
          React.keyword_list string_gt_zero props
          = React.Mounted
              {| Render.section_class := type; Render.content := Render.Tags items |}
          /\ map snd items = x :: l
          /\ map fst items = seq 0 (length (x :: l))
          /\ NoDup (map fst items))
  /\ (forall before v after, keywords = JArr (before ++ v :: after) ->
        Forall (fun v => React.valid_child v = true) before ->
        React.valid_child v = false ->
        React.keyword_list string_gt_zero props
        = React.Crashed (React.InvalidChild v))
  /\ (nullish keywords \/ (exists c s, keywords = JStr (c :: s)) ->
      React.keyword_list string_gt_zero props
      = React.Crashed (React.Threw TypeErrorObj)).
Proof.
  intros props.
  assert (forall x l,
            Render.KeywordList string_gt_zero
              {| ResultsDisplay.keywords := JArr (x :: l); ResultsDisplay.type := type |}
            = Return {| Render.section_class := type;
                        Render.content :=
                          Render.Tags (imap (fun index keyword => (index, keyword))
                                         (x :: l)) |}) as Hfun by reflexivity.
  split; [by intros ->|]. split; [|split].
  - intros x l -> Hvalid.
    exists (imap (fun index keyword => (index, keyword)) (x :: l)).
    unfold React.keyword_list, props.
    rewrite Hfun. cbn [React.call mbind React.mounted_bind Render.content].
    destruct (children_valid (imap (fun index keyword => (index, keyword)) (x :: l)))
      as [units Hunits]; [apply (indexed_valid (x :: l) 0 Hvalid)|].
    rewrite Hunits. cbn [mbind React.mounted_bind]. split; [reflexivity|].
    split; [apply snd_imap_index|].
    assert (map fst (imap (fun index keyword => (index, keyword)) (x :: l))
            = seq 0 (length (x :: l))) as Hkeys by apply (fst_imap_index (x :: l) 0).
    split; [exact Hkeys|]. rewrite Hkeys. apply NoDup_seq.
  - intros before v after -> Hbefore Hv. unfold React.keyword_list, props.
    destruct before as [|x before].
    + change ([] ++ v :: after) with (v :: after).
      rewrite Hfun. cbn [React.call mbind React.mounted_bind Render.content].
      change (imap (fun index keyword => (index, keyword)) (v :: after))
        with ([] ++ (0%nat, v)
                :: imap ((fun index keyword => (index, keyword)) ∘ S) after).
      rewrite (children_invalid [] _ (0%nat, v)); [done|constructor|done].
    + change ((x :: before) ++ v :: after) with (x :: (before ++ v :: after)).
      rewrite Hfun. cbn [React.call mbind React.mounted_bind Render.content].
      change (x :: before ++ v :: after) with ((x :: before) ++ v :: after).
      rewrite imap_app. cbn [imap].
      rewrite (children_invalid _ _ (length (x :: before) + 0, v)%nat); [done| |done].
      apply (indexed_valid (x :: before) 0 Hbefore).
  - intros [[-> | ->]|(c & s & ->)]; reflexivity.
Qed.

Lemma KeywordList_on_page_witness :
  React.keyword_list never_positive
    {| ResultsDisplay.keywords := JArr []; ResultsDisplay.type := js "missing" |}
  = React.Mounted
      {| Render.section_class := js "missing"; Render.content := Render.NoneFound |}
  /\ React.keyword_list never_positive
       {| ResultsDisplay.keywords := JArr [JStr (js "python"); JObj ∅];
          ResultsDisplay.type := js "found" |}
     = React.Crashed (React.InvalidChild (JObj ∅))
  /\ React.keyword_list never_positive
       {| ResultsDisplay.keywords := JUndefined; ResultsDisplay.type := js "found" |}
     = React.Crashed (React.Threw TypeErrorObj).
Proof.
  split; [|split].
  - apply (proj1 (KeywordList_on_page never_positive (JArr []) (js "missing"))).
    reflexivity.
  - apply (proj1 (proj2 (proj2 (KeywordList_on_page never_positive
                                  (JArr [JStr (js "python"); JObj ∅]) (js "found"))))
             [JStr (js "python")] (JObj ∅) []); [reflexivity| |reflexivity].
    by repeat constructor.
  - apply (proj2 (proj2 (proj2 (KeywordList_on_page never_positive JUndefined
                                  (js "found"))))).
    left. left. reflexivity.
Defined.
